(** * Trading-Bot: the TradeLocker data feed and the EMA-cross strategy

    A shallow embedding of [tradelocker_feed.py] (class [TradeLockerFeed])
    and of the order bookkeeping of [momentum_bot.py]
    (class [EmaCrossStrategy]), with the properties of the feed's
    historical/live sequencing, of its live poller and of the strategy's
    pending-order gate.

    Modelling conventions.
    - A Python object with mutable attributes is a record; a method is a
      function in the monad [M] below, which threads the object and keeps
      it when an exception is raised (what a caller that catches the
      exception would still see).
    - [datetime.datetime.now()], [time.time()] and the draws of
      [numpy.random] are inputs of the functions that read them.
    - Python floats are idealised as exact rationals ([Q]).
    - A calendar date is kept as its proleptic Gregorian ordinal
      ([date.toordinal()]); this is the number CPython itself uses to define
      [weekday()] and the addition of a [timedelta]. *)

From Stdlib Require Import ZArith QArith Qround List Sorted String Ascii Bool Lia Lqa.
Import ListNotations.
Open Scope Z_scope.

(** ** Python values used by the feed *)

Module Py.

(** Exceptions that the modelled code can raise. *)
Inductive exn : Type :=
| ValueError (msg : string)
| RuntimeError (msg : string)
| IndexError
| TypeError
| AttributeError
| ZeroDivisionError
| OverflowError.

(** *** Strings *)

Definition chars (s : string) : list ascii := list_ascii_of_string s.

(** [s[-1]]: the last character, [IndexError] on the empty string
    (returned here as [None]). *)
Fixpoint last_char (l : list ascii) : option ascii :=
  match l with
  | [] => None
  | [c] => Some c
  | _ :: r => last_char r
  end.

(** [s[:-1]]: everything but the last character; the empty string stays
    empty. *)
Definition but_last (l : list ascii) : list ascii := removelast l.

Definition is_digit (c : ascii) : bool :=
  let n := nat_of_ascii c in (48 <=? n)%nat && (n <=? 57)%nat.

Definition digit_val (c : ascii) : Z := Z.of_nat (nat_of_ascii c) - 48.

(** ASCII white space as [int()] strips it: space, and tab to carriage
    return. *)
Definition is_space (c : ascii) : bool :=
  let n := nat_of_ascii c in
  (n =? 32)%nat || ((9 <=? n)%nat && (n <=? 13)%nat).

Fixpoint lstrip (l : list ascii) : list ascii :=
  match l with
  | c :: r => if is_space c then lstrip r else l
  | [] => []
  end.

Definition strip (l : list ascii) : list ascii :=
  rev (lstrip (rev (lstrip l))).

(** The digits of a decimal literal: at least one digit, single
    underscores allowed between digits only. [prev] tells whether the
    character before was a digit. *)
Fixpoint int_digits (acc : Z) (prev : bool) (l : list ascii) : option Z :=
  match l with
  | [] => if prev then Some acc else None
  | c :: r =>
      if is_digit c then int_digits (10 * acc + digit_val c) true r
      else if (Ascii.eqb c "_"%char) && prev then int_digits acc false r
      else None
  end.

(** [int(s)] on a string, base 10 (ASCII input): [None] is [ValueError]. *)
Definition int (l : list ascii) : option Z :=
  match strip l with
  | c :: r =>
      if Ascii.eqb c "+"%char then int_digits 0 false r
      else if Ascii.eqb c "-"%char then option_map Z.opp (int_digits 0 false r)
      else int_digits 0 false (c :: r)
  | [] => None
  end.

(** *** [datetime.time] and [datetime.datetime] *)

Record time : Type := mk_time {
  t_hour : Z;
  t_minute : Z;
  t_second : Z;
  t_microsecond : Z
}.

(** A naive [datetime.datetime]; [ordinal] is [toordinal()] of its date. *)
Record datetime : Type := mk_datetime {
  ordinal : Z;
  hour : Z;
  minute : Z;
  second : Z;
  microsecond : Z
}.

Definition _MAXORDINAL : Z := 3652059.

(** Lexicographic comparison of tuples of integers, as Python compares
    the field tuples of two times or datetimes. *)
Fixpoint lex_compare (a b : list Z) : comparison :=
  match a, b with
  | x :: a', y :: b' =>
      match x ?= y with
      | Eq => lex_compare a' b'
      | c => c
      end
  | [], [] => Eq
  | [], _ :: _ => Lt
  | _ :: _, [] => Gt
  end.

Definition time_fields (t : time) : list Z :=
  [t_hour t; t_minute t; t_second t; t_microsecond t].

Definition dt_fields (d : datetime) : list Z :=
  [ordinal d; hour d; minute d; second d; microsecond d].

Definition time_compare (a b : time) : comparison :=
  lex_compare (time_fields a) (time_fields b).

Definition dt_compare (a b : datetime) : comparison :=
  lex_compare (dt_fields a) (dt_fields b).

(** [a <= b] *)
Definition time_leb (a b : time) : bool :=
  match time_compare a b with Gt => false | _ => true end.

(** [a <= b] *)
Definition dt_leb (a b : datetime) : bool :=
  match dt_compare a b with Gt => false | _ => true end.

(** [a < b] *)
Definition dt_ltb (a b : datetime) : bool :=
  match dt_compare a b with Lt => true | _ => false end.

(** [d.time()] *)
Definition time_of (d : datetime) : time :=
  mk_time (hour d) (minute d) (second d) (microsecond d).

(** [d.weekday()]: Monday is 0. *)
Definition weekday (d : datetime) : Z := (ordinal d + 6) mod 7.

(** [d.replace(hour=h, minute=m, second=s, microsecond=us)]: the fields
    are range-checked, [None] is [ValueError]. *)
Definition replace (d : datetime) (h m s us : Z) : option datetime :=
  if (0 <=? h) && (h <=? 23) && (0 <=? m) && (m <=? 59)
     && (0 <=? s) && (s <=? 59) && (0 <=? us) && (us <=? 999999)
  then Some (mk_datetime (ordinal d) h m s us)
  else None.

(** [d + timedelta(days=n)]: [None] is [OverflowError]. *)
Definition add_days (d : datetime) (n : Z) : option datetime :=
  let o := ordinal d + n in
  if (0 <? o) && (o <=? _MAXORDINAL)
  then Some (mk_datetime o (hour d) (minute d) (second d) (microsecond d))
  else None.

(** The ordinal of a calendar date, as CPython's [_ymd2ord]. *)
Definition is_leap (y : Z) : bool :=
  (y mod 4 =? 0) && (negb (y mod 100 =? 0) || (y mod 400 =? 0)).

Definition days_before_year (y : Z) : Z :=
  let y1 := y - 1 in y1 * 365 + y1 / 4 - y1 / 100 + y1 / 400.

Definition days_before_month (y m : Z) : Z :=
  nth (Z.to_nat m) [0; 0; 31; 59; 90; 120; 151; 181; 212; 243; 273; 304; 334] 0
  + (if (2 <? m) && is_leap y then 1 else 0).

Definition ymd2ord (y m d : Z) : Z :=
  days_before_year y + days_before_month y m + d.

(** [datetime.datetime(y, m, d)]: midnight of a calendar date. *)
Definition midnight (y m d : Z) : datetime :=
  mk_datetime (ymd2ord y m d) 0 0 0 0.

(** *** [datetime.datetime.strptime(s, '%H:%M').time()] *)

(** One field of the format: the two-digit alternative is tried first
    when its value is allowed ([%H]: up to 23, [%M]: up to 59), then a
    single digit. Returns the value and the rest of the input. *)
Definition strptime_field (limit : Z) (l : list ascii)
  : option (Z * list ascii) :=
  match l with
  | a :: b :: r =>
      if is_digit a && is_digit b && (10 * digit_val a + digit_val b <=? limit)
      then Some (10 * digit_val a + digit_val b, r)
      else if is_digit a then Some (digit_val a, b :: r) else None
  | [a] => if is_digit a then Some (digit_val a, []) else None
  | [] => None
  end.

(** [None] is [ValueError] (no match, or unconverted data remains). *)
Definition strptime_HM (l : list ascii) : option time :=
  match strptime_field 23 l with
  | Some (h, c :: r) =>
      if Ascii.eqb c ":"%char then
        match strptime_field 59 r with
        | Some (m, []) => Some (mk_time h m 0 0)
        | _ => None
        end
      else None
  | _ => None
  end.

End Py.


(** ** The feed object *)

(** [TradeLockerAPI] of [momentum_bot.py]: the handle the feed connects
    through. *)
Record TradeLockerAPI : Type := mk_api {
  api_key : string;
  is_connected : bool
}.

(** [TradeLockerAPI.connect]: marks the handle connected and returns
    [is_connected]. *)
Definition connect (a : TradeLockerAPI) : bool * TradeLockerAPI :=
  let a' := mk_api (api_key a) true in (is_connected a', a').

(** One OHLCV bar: the rows of [hist_data] and the dict built by
    [_fetch_live_bar]. *)
Record Bar : Type := mk_bar {
  datetime : Py.datetime;
  open : Q;
  high : Q;
  low : Q;
  close : Q;
  volume : Q;
  openinterest : Q
}.

(** [TradeLockerFeed.params] (the parameters the modelled methods read). *)
Record Params : Type := mk_params {
  symbol : option string;
  timeframe : string;
  fromdate : option Py.datetime;
  todate : option Py.datetime;
  historical : bool;
  api : option TradeLockerAPI;
  sessionstart : option string;
  sessionend : option string
}.

(** The attributes of a [TradeLockerFeed] instance. [self_api] is the
    state of the handle that [self.api] refers to, [hist_data] is [None]
    until the loader runs, [_idx] is unset until [start], and [lines] is
    the bar last written by [_load_bar] (the current bar). *)
Record TradeLockerFeed : Type := mk_feed {
  p : Params;
  self_api : TradeLockerAPI;
  intraday : bool;
  hist_data : option (list Bar);
  hist_loaded : bool;
  live_buffer : list Bar;
  last_bar_time : option Py.datetime;
  last_bar : option Bar;
  _idx : option Z;
  lines : option Bar
}.

Definition set_api (a : TradeLockerAPI) (s : TradeLockerFeed) :=
  mk_feed (p s) a (intraday s) (hist_data s) (hist_loaded s) (live_buffer s)
          (last_bar_time s) (last_bar s) (_idx s) (lines s).

Definition set_hist (h : list Bar) (t : option Py.datetime) (s : TradeLockerFeed) :=
  mk_feed (p s) (self_api s) (intraday s) (Some h) true (live_buffer s)
          t (last_bar s) (_idx s) (lines s).

Definition set_live_buffer (b : list Bar) (s : TradeLockerFeed) :=
  mk_feed (p s) (self_api s) (intraday s) (hist_data s) (hist_loaded s) b
          (last_bar_time s) (last_bar s) (_idx s) (lines s).

Definition set_last_bar_time (t : option Py.datetime) (s : TradeLockerFeed) :=
  mk_feed (p s) (self_api s) (intraday s) (hist_data s) (hist_loaded s)
          (live_buffer s) t (last_bar s) (_idx s) (lines s).

Definition set_last_bar (b : option Bar) (s : TradeLockerFeed) :=
  mk_feed (p s) (self_api s) (intraday s) (hist_data s) (hist_loaded s)
          (live_buffer s) (last_bar_time s) b (_idx s) (lines s).

Definition set_idx (i : Z) (s : TradeLockerFeed) :=
  mk_feed (p s) (self_api s) (intraday s) (hist_data s) (hist_loaded s)
          (live_buffer s) (last_bar_time s) (last_bar s) (Some i) (lines s).

Definition set_lines (b : Bar) (s : TradeLockerFeed) :=
  mk_feed (p s) (self_api s) (intraday s) (hist_data s) (hist_loaded s)
          (live_buffer s) (last_bar_time s) (last_bar s) (_idx s) (Some b).

(** ** Methods as state transformers with exceptions *)

(** The result of a call: a value, a raised exception, or a loop that was
    still running when the iteration budget ran out. *)
Inductive res (A : Type) : Type :=
| Val (a : A)
| Exc (e : Py.exn)
| OutOfFuel.
Arguments Val {A} a.
Arguments Exc {A} e.
Arguments OutOfFuel {A}.

(** A method of the feed: the attributes before the call give the result
    and the attributes after it, also when the call raises. *)
Definition M (A : Type) : Type := TradeLockerFeed -> res A * TradeLockerFeed.

Definition ret {A} (a : A) : M A := fun s => (Val a, s).

Definition raise {A} (e : Py.exn) : M A := fun s => (Exc e, s).

Definition bind {A B} (m : M A) (k : A -> M B) : M B :=
  fun s =>
    match m s with
    | (Val a, s') => k a s'
    | (Exc e, s') => (Exc e, s')
    | (OutOfFuel, s') => (OutOfFuel, s')
    end.

Definition gets {A} (f : TradeLockerFeed -> A) : M A := fun s => (Val (f s), s).

Definition modify (f : TradeLockerFeed -> TradeLockerFeed) : M unit :=
  fun s => (Val tt, f s).

(** A Python operation that raises [e] where the model returns [None]. *)
Definition or_raise {A} (e : Py.exn) (o : option A) : M A :=
  match o with
  | Some a => ret a
  | None => raise e
  end.

Declare Scope feed_scope.
Delimit Scope feed_scope with feed.
Notation "x <- m ;; k" := (bind m (fun x => k))
  (at level 61, m at next level, right associativity) : feed_scope.
Notation "m ;;; k" := (bind m (fun _ => k))
  (at level 61, right associativity) : feed_scope.
Open Scope feed_scope.

(** A computation that only reads the feed: it returns a value or raises,
    and leaves the attributes as they were. *)
Definition reads {A} (m : M A) : Prop :=
  forall s, (exists a, m s = (Val a, s)) \/ (exists x, m s = (Exc x, s)).

(** Error messages of the source. *)
Definition msg_api : string := "TradeLocker API instance must be provided".
Definition msg_symbol : string := "Symbol must be provided".
Definition msg_connect : string := "Failed to connect to TradeLocker API".
Definition msg_int : string := "invalid literal for int() with base 10".
Definition msg_strptime : string := "time data does not match format".
Definition msg_replace : string := "hour must be in 0..23".

(** [self.p.timeframe[-1] not in ('d', 'w', 'm')] *)
Definition not_in_dwm (c : ascii) : bool :=
  negb (Ascii.eqb c "d"%char || Ascii.eqb c "w"%char || Ascii.eqb c "m"%char).

(** [TradeLockerFeed.__init__]: the constructor either raises or returns
    the new object. *)
Definition __init__ (prm : Params) : Py.exn + TradeLockerFeed :=
  match api prm with
  | None => inl (Py.ValueError msg_api)
  | Some a =>
      match symbol prm with
      | None => inl (Py.ValueError msg_symbol)
      | Some _ =>
          match Py.last_char (Py.chars (timeframe prm)) with
          | None => inl Py.IndexError
          | Some c =>
              inr (mk_feed prm a (not_in_dwm c) None false [] None None None None)
          end
      end
  end.

(** [int(self.p.timeframe[:-1])] *)
Definition minutes_timeframe : M Z :=
  tf <- gets (fun s => timeframe (p s)) ;;
  or_raise (Py.ValueError msg_int) (Py.int (Py.but_last (Py.chars tf))).

(** ** The historical loader *)

(** The draws of [numpy.random] in one run of the loader, by index in the
    returned arrays: the four calls to [normal] and the call to [randint]. *)
Record Draws : Type := mk_draws {
  close_steps : nat -> Q;
  open_gaps : nat -> Q;
  high_gaps : nat -> Q;
  low_gaps : nat -> Q;
  volumes : nat -> Z
}.

(** [while minutes < session_end]: the bars of one trading day, from
    [minutes] on; [step] is [int(self.p.timeframe[:-1])], evaluated when
    the loop body reaches it. *)
Fixpoint session_bars (fuel : nat) (step : option Z) (current_date : Py.datetime)
    (minutes : Z) (dates : list Py.datetime) : res (list Py.datetime) :=
  if minutes <? 16 * 60 then
    match fuel with
    | O => OutOfFuel
    | S fuel' =>
        match Py.replace current_date (minutes / 60) (minutes mod 60) 0 0 with
        | None => Exc (Py.ValueError msg_replace)
        | Some bar_time =>
            match step with
            | None => Exc (Py.ValueError msg_int)
            | Some k =>
                session_bars fuel' step current_date (minutes + k)
                             (dates ++ [bar_time])
            end
        end
    end
  else Val dates.

(** [while current_date <= end_date]: the timestamps of the bars. Each
    loop runs at most [fuel] iterations. *)
Fixpoint hist_dates (fuel : nat) (intr : bool) (step : option Z)
    (current_date end_date : Py.datetime) (dates : list Py.datetime)
    : res (list Py.datetime) :=
  if Py.dt_leb current_date end_date then
    match fuel with
    | O => OutOfFuel
    | S fuel' =>
        let day :=
          if intr then
            if Py.weekday current_date <? 5
            then session_bars (S fuel') step current_date (9 * 60 + 30) dates
            else Val dates
          else
            if Py.weekday current_date <? 5
            then Val (dates ++ [current_date])
            else Val dates in
        match day with
        | Val dates' =>
            match Py.add_days current_date 1 with
            | None => Exc Py.OverflowError
            | Some next_date =>
                hist_dates fuel' intr step next_date end_date dates'
            end
        | other => other
        end
    end
  else Val dates.

(** [np.cumsum(a)[i]] *)
Fixpoint cumsum (a : nat -> Q) (i : nat) : Q :=
  match i with
  | O => a O
  | S j => (cumsum a j + a i)%Q
  end.

(** [np.maximum] and [np.minimum] on one pair, also Python's [max] and
    [min] of two numbers. *)
Definition qmax (a b : Q) : Q := if Qle_bool a b then b else a.
Definition qmin (a b : Q) : Q := if Qle_bool a b then a else b.

(** Row [i] of the data frame. *)
Definition hist_row (rnd : Draws) (i : nat) (d : Py.datetime) : Bar :=
  let close_price := (cumsum (close_steps rnd) i + 100)%Q in
  let open_price := (close_price - open_gaps rnd i)%Q in
  let high_price := (qmax close_price open_price + high_gaps rnd i)%Q in
  let low_price := (qmin close_price open_price - low_gaps rnd i)%Q in
  mk_bar d open_price high_price low_price close_price
         (inject_Z (volumes rnd i)) 0.

Fixpoint hist_rows (rnd : Draws) (i : nat) (dates : list Py.datetime) : list Bar :=
  match dates with
  | [] => []
  | d :: r => hist_row rnd i d :: hist_rows rnd (S i) r
  end.

Definition lift {A} (r : res A) : M A := fun s => (r, s).

(** [fromdate or now - timedelta(days=30)] and [todate or now]. *)
Definition start_date (prm : Params) (now_start : Py.datetime) : option Py.datetime :=
  match fromdate prm with
  | Some d => Some d
  | None => Py.add_days now_start (-30)
  end.

Definition end_date (prm : Params) (now_end : Py.datetime) : Py.datetime :=
  match todate prm with
  | Some d => d
  | None => now_end
  end.

(** [TradeLockerFeed._load_historical_data]; [now_start] and [now_end] are
    the two readings of the clock. *)
Definition _load_historical_data (fuel : nat) (now_start now_end : Py.datetime)
    (rnd : Draws) : M unit :=
  prm <- gets p ;;
  first <- or_raise Py.OverflowError (start_date prm now_start) ;;
  intr <- gets intraday ;;
  dates <- lift (hist_dates fuel intr
                   (Py.int (Py.but_last (Py.chars (timeframe prm))))
                   first (end_date prm now_end) []) ;;
  match dates with
  | [] => modify (fun s => set_hist [] (last_bar_time s) s)
  | d :: r => modify (set_hist (hist_rows rnd 0 dates) (Some (last dates d)))
  end.

(** [TradeLockerFeed.start] *)
Definition start (fuel : nat) (now_start now_end : Py.datetime) (rnd : Draws)
    : M unit :=
  a <- gets self_api ;;
  (if negb (is_connected a) then
     let (ok, a') := connect a in
     modify (set_api a') ;;;
     if negb ok then raise (Py.RuntimeError msg_connect) else ret tt
   else ret tt) ;;;
  h <- gets (fun s => historical (p s)) ;;
  (if h then _load_historical_data fuel now_start now_end rnd else ret tt) ;;;
  modify (set_idx (-1)).

(** ** The live poller *)

(** What one poll reads from outside: the wall clock and [time.time()]. *)
Record Env : Type := mk_env {
  now : Py.datetime;
  time_time : Q
}.

(** Truth value of a parameter that is [None] or a string. *)
Definition truthy (o : option string) : bool :=
  match o with
  | Some (String _ _) => true
  | _ => false
  end.

Definition str_of (o : option string) : string :=
  match o with
  | Some s => s
  | None => EmptyString
  end.

(** [x % m] on floats, for positive [m]. *)
Definition qmod (x m : Q) : Q := (x - m * inject_Z (Qfloor (x / m)))%Q.

(** The local [is_trading_hours] of [_fetch_live_bar]. *)
Definition is_trading_hours (e : Env) : M bool :=
  prm <- gets p ;;
  if truthy (sessionstart prm) && truthy (sessionend prm) then
    session_start <- or_raise (Py.ValueError msg_strptime)
                       (Py.strptime_HM (Py.chars (str_of (sessionstart prm)))) ;;
    session_end <- or_raise (Py.ValueError msg_strptime)
                     (Py.strptime_HM (Py.chars (str_of (sessionend prm)))) ;;
    let current_time := Py.time_of (now e) in
    ret (Py.time_leb session_start current_time
         && Py.time_leb current_time session_end)
  else ret true.

(** The local [bar_time] of [_fetch_live_bar]: the clock rounded down to
    the bar. *)
Definition bar_time (e : Env) : M Py.datetime :=
  intr <- gets intraday ;;
  if intr then
    minutes_tf <- minutes_timeframe ;;
    let total_minutes := Py.hour (now e) * 60 + Py.minute (now e) in
    if minutes_tf =? 0 then raise Py.ZeroDivisionError
    else
      let bar_minutes := (total_minutes / minutes_tf) * minutes_tf in
      or_raise (Py.ValueError msg_replace)
        (Py.replace (now e) (bar_minutes / 60) (bar_minutes mod 60) 0 0)
  else
    or_raise (Py.ValueError msg_replace) (Py.replace (now e) 0 0 0 0).

(** The dict [bar] of [_fetch_live_bar]: prices from the close of the last
    live bar, or the fixed first bar. *)
Definition live_bar (e : Env) (bt : Py.datetime) (lb : option Bar) : Bar :=
  match lb with
  | Some b =>
      let last_close := close b in
      let open_price := last_close in
      let close_price :=
        (last_close * (1 + (1 # 1000) * ((1 # 2) - qmod (time_time e) 2)))%Q in
      let high_price := (qmax open_price close_price + (1 # 1000))%Q in
      let low_price := (qmin open_price close_price - (1 # 1000))%Q in
      mk_bar bt open_price high_price low_price close_price
             (1000 + qmod (time_time e) 1000)%Q 0
  | None =>
      mk_bar bt (1999 # 20) (2001 # 20) (999 # 10) 100
             (1000 + qmod (time_time e) 1000)%Q 0
  end.

(** [TradeLockerFeed._fetch_live_bar] *)
Definition _fetch_live_bar (e : Env) : M (option Bar) :=
  trading <- is_trading_hours e ;;
  let is_weekday := Py.weekday (now e) <? 5 in
  if negb (trading && is_weekday) then ret None
  else
    bt <- bar_time e ;;
    lbt <- gets last_bar_time ;;
    if match lbt with
       | Some t => Py.dt_leb bt t
       | None => false
       end
    then ret None
    else
      lb <- gets last_bar ;;
      let bar := live_bar e bt lb in
      modify (set_last_bar (Some bar)) ;;;
      modify (set_last_bar_time (Some bt)) ;;;
      ret (Some bar).

(** [TradeLockerFeed._load_next_live_bar] *)
Definition _load_next_live_bar (e : Env) : M bool :=
  bar <- _fetch_live_bar e ;;
  match bar with
  | Some b =>
      modify (fun s => set_live_buffer (live_buffer s ++ [b]) s) ;;;
      ret true
  | None => ret false
  end.

(** ** The cursor *)

(** [self._idx], unset before [start]. *)
Definition get_idx : M Z :=
  i <- gets _idx ;; or_raise Py.AttributeError i.

(** [len(self.hist_data)]: a [TypeError] while [hist_data] is [None]. *)
Definition len_hist_data : M Z :=
  h <- gets hist_data ;;
  match h with
  | Some rows => ret (Z.of_nat (List.length rows))
  | None => raise Py.TypeError
  end.

(** [self.hist_data.iloc[i].to_dict()] for [0 <= i < len]. *)
Definition iloc (i : Z) : M Bar :=
  h <- gets hist_data ;;
  match h with
  | Some rows => or_raise Py.IndexError (nth_error rows (Z.to_nat i))
  | None => raise Py.TypeError
  end.

(** [self._idx >= 0 and self._idx < len(self.hist_data)]: the test of
    [_get_bar] for serving a row of the historical table. *)
Definition idx_in_table : M bool :=
  i <- get_idx ;;
  if 0 <=? i then n <- len_hist_data ;; ret (i <? n) else ret false.

(** [TradeLockerFeed._get_bar] *)
Definition _get_bar (e : Env) : M (option Bar) :=
  in_table <- idx_in_table ;;
  if in_table then
    i <- get_idx ;; bar <- iloc i ;; ret (Some bar)
  else
    buf <- gets live_buffer ;;
    loaded <- (match buf with
               | [] => _load_next_live_bar e
               | _ :: _ => ret true
               end) ;;
    if negb loaded then ret None
    else
      buf' <- gets live_buffer ;;
      match buf' with
      | b :: rest => modify (set_live_buffer rest) ;;; ret (Some b)
      | [] => ret None
      end.

(** [TradeLockerFeed._load_bar]: the bar becomes the current bar. *)
Definition _load_bar (e : Env) : M bool :=
  bar <- _get_bar e ;;
  match bar with
  | None => ret false
  | Some b => modify (set_lines b) ;;; ret true
  end.

(** [TradeLockerFeed._next_historical] *)
Definition _next_historical : M bool :=
  i <- get_idx ;;
  modify (set_idx (i + 1)) ;;;
  n <- len_hist_data ;;
  ret (i + 1 <? n).

(** [TradeLockerFeed._next_live] *)
Definition _next_live (e : Env) : M bool := _load_next_live_bar e.

(** [TradeLockerFeed.next] *)
Definition next (e : Env) : M bool :=
  i <- get_idx ;;
  more <- (if 0 <=? i then n <- len_hist_data ;; ret (i <? n - 1) else ret false) ;;
  if more then
    _next_historical ;;; ret true
  else
    n <- len_hist_data ;;
    if i =? n - 1 then
      modify (set_idx (i + 1)) ;;;
      h <- gets (fun s => historical (p s)) ;;
      (if negb h then
         modify (set_live_buffer []) ;;; modify (set_last_bar_time None)
       else ret tt) ;;;
      _next_live e
    else _next_live e.

Section Framework.

(** [super(TradeLockerFeed, self).next()]: the method of the framework's
    base class, which is not part of this repository. *)
Variable super_next : M bool.

(** [TradeLockerFeed.load_next] *)
Definition load_next (e : Env) : M bool :=
  ok <- super_next ;;
  if negb ok then ret false else _load_bar e.

End Framework.

(** [TradeLockerFeed.haslivedata] *)
Definition haslivedata : M bool :=
  buf <- gets live_buffer ;;
  match buf with
  | _ :: _ => ret true
  | [] => i <- get_idx ;; n <- len_hist_data ;; ret (n <=? i)
  end.

(** [TradeLockerFeed.islive] *)
Definition islive : M bool := ret true.

(** [TradeLockerFeed.stop] *)
Definition stop : M unit := ret tt.

(** A consumer that calls [next] once per reading of the environment and
    goes on after a call that raised: the results of the calls, in order,
    and the feed after the last one. *)
Fixpoint advance_all (es : list Env) (s : TradeLockerFeed)
    : list (res bool) * TradeLockerFeed :=
  match es with
  | [] => ([], s)
  | e :: es' =>
      let (r, s') := next e s in
      let (rs, s'') := advance_all es' s' in
      (r :: rs, s'')
  end.

(** A consumer that interleaves [next] and [_load_bar] in any order. *)
Inductive Call : Type :=
| CallNext (e : Env)
| CallLoadBar (e : Env).

Definition call (c : Call) : M bool :=
  match c with
  | CallNext e => next e
  | CallLoadBar e => _load_bar e
  end.

Fixpoint call_all (cs : list Call) (s : TradeLockerFeed)
    : list (res bool) * TradeLockerFeed :=
  match cs with
  | [] => ([], s)
  | c :: cs' =>
      let (r, s') := call c s in
      let (rs, s'') := call_all cs' s' in
      (r :: rs, s'')
  end.

(** The same for the live poller alone. *)
Fixpoint poll_all (es : list Env) (s : TradeLockerFeed)
    : list (res (option Bar)) * TradeLockerFeed :=
  match es with
  | [] => ([], s)
  | e :: es' =>
      let (r, s') := _fetch_live_bar e s in
      let (rs, s'') := poll_all es' s' in
      (r :: rs, s'')
  end.

(** The clock of [e] is outside the session window from [ts] to [te]
    (both ends included), or on a Saturday or Sunday. *)
Definition session_closed (ts te : Py.time) (e : Env) : Prop :=
  Py.time_leb ts (Py.time_of (now e)) && Py.time_leb (Py.time_of (now e)) te = false
  \/ 5 <= Py.weekday (now e).

(** The table and the cursor of [s'] are those of [s]. *)
Definition same_cursor (s s' : TradeLockerFeed) : Prop :=
  hist_data s' = hist_data s /\ _idx s' = _idx s.

(** Timestamps in strictly increasing order. *)
Definition increasing (ds : list Py.datetime) : Prop :=
  StronglySorted (fun a b => Py.dt_ltb a b = true) ds.

(** A bar of the day of [cur] that lies before minute [minutes] of it, or
    a bar of an earlier day. *)
Definition before_minute (cur : Py.datetime) (minutes : Z) (d : Py.datetime) : Prop :=
  Py.ordinal d < Py.ordinal cur
  \/ (Py.ordinal d = Py.ordinal cur /\ 0 <= Py.minute d < 60
      /\ Py.hour d * 60 + Py.minute d < minutes).

(** The cursor is in the live range: at or past the end of the table. *)
Definition in_live_range (s : TradeLockerFeed) : Prop :=
  exists rows i, hist_data s = Some rows /\ _idx s = Some i
                 /\ Z.of_nat (List.length rows) <= i.

(** ** The strategy's order bookkeeping *)

Module Strategy.

(** The order statuses of the framework ([bt.Order]), in its order. *)
Inductive OrderStatus : Type :=
| Created | Submitted | Accepted | Partial | Completed
| Canceled | Expired | Margin | Rejected.

(** What [notify_order] reads of an order. *)
Record Order : Type := mk_order {
  status : OrderStatus;
  isbuy : bool;
  executed_price : Q
}.

Inductive LogLine : Type :=
| LogBuyExecuted (price : Q)
| LogSellExecuted (price : Q)
| LogOrderFailed
| LogClose
| LogBuyCreate
| LogSellCreate.

(** An order handed to the broker by [self.buy()] or [self.sell()]. *)
Inductive Submission : Type := Buy | Sell.

(** The attributes of an [EmaCrossStrategy] that its methods read and
    write: the tracked order, the size of the open position (kept by the
    broker), the lines logged and the orders submitted so far. *)
Record EmaCrossStrategy : Type := mk_strategy {
  order : option Order;
  position : Z;
  logged : list LogLine;
  submitted : list Submission
}.

Definition status_in (x : OrderStatus) (l : list OrderStatus) : bool :=
  existsb (fun y => match x, y with
                    | Created, Created | Submitted, Submitted
                    | Accepted, Accepted | Partial, Partial
                    | Completed, Completed | Canceled, Canceled
                    | Expired, Expired | Margin, Margin
                    | Rejected, Rejected => true
                    | _, _ => false
                    end) l.

Definition log (l : LogLine) (st : EmaCrossStrategy) : EmaCrossStrategy :=
  mk_strategy (order st) (position st) (logged st ++ [l]) (submitted st).

Definition set_order (o : option Order) (st : EmaCrossStrategy) : EmaCrossStrategy :=
  mk_strategy o (position st) (logged st) (submitted st).

(** [EmaCrossStrategy.notify_order] *)
Definition notify_order (o : Order) (st : EmaCrossStrategy) : EmaCrossStrategy :=
  if status_in (status o) [Submitted; Accepted] then st
  else
    let st1 :=
      if status_in (status o) [Completed] then
        if isbuy o then log (LogBuyExecuted (executed_price o)) st
        else log (LogSellExecuted (executed_price o)) st
      else if status_in (status o) [Canceled; Margin; Rejected] then
        log LogOrderFailed st
      else st in
    set_order None st1.

(** [self.buy()] and [self.sell()]: the order goes to the broker, which
    returns the order object ([created]). *)
Definition submit (x : Submission) (created : Order) (st : EmaCrossStrategy)
    : EmaCrossStrategy :=
  mk_strategy (Some created) (position st) (logged st) (submitted st ++ [x]).

(** [EmaCrossStrategy.next]; [crossover] is the value of the crossover
    indicator on the bar and [created] the order object the broker would
    return. *)
Definition next (crossover : Z) (created : Order) (st : EmaCrossStrategy)
    : EmaCrossStrategy :=
  match order st with
  | Some _ => st
  | None =>
      let st1 := log LogClose st in
      if position st1 =? 0 then
        if 0 <? crossover then submit Buy created (log LogBuyCreate st1)
        else st1
      else
        if crossover <? 0 then submit Sell created (log LogSellCreate st1)
        else st1
  end.

(** What happens to a strategy between two of its states: a bar is
    processed or the broker reports on an order. *)
Inductive Event : Type :=
| OnBar (crossover : Z) (created : Order)
| OnNotify (o : Order).

Definition step (st : EmaCrossStrategy) (ev : Event) : EmaCrossStrategy :=
  match ev with
  | OnBar crossover created => next crossover created st
  | OnNotify o => notify_order o st
  end.

Definition run (evs : list Event) (st : EmaCrossStrategy) : EmaCrossStrategy :=
  fold_left step evs st.

(** A bar, or a report that the order was submitted or accepted. *)
Definition unresolved (ev : Event) : bool :=
  match ev with
  | OnBar _ _ => true
  | OnNotify o => status_in (status o) [Submitted; Accepted]
  end.

(** The broker changes the size of the open position, which
    [self.position] reads. *)
Definition set_position (size : Z) (st : EmaCrossStrategy) : EmaCrossStrategy :=
  mk_strategy (order st) size (logged st) (submitted st).

(** What happens to a strategy, the broker's fills included. *)
Inductive Tick : Type :=
| TickBar (crossover : Z) (created : Order)
| TickNotify (o : Order)
| TickPosition (size : Z).

Definition tick (st : EmaCrossStrategy) (t : Tick) : EmaCrossStrategy :=
  match t with
  | TickBar crossover created => next crossover created st
  | TickNotify o => notify_order o st
  | TickPosition size => set_position size st
  end.

Definition ticks (ts : list Tick) (st : EmaCrossStrategy) : EmaCrossStrategy :=
  fold_left tick ts st.

(** A report with a status other than submitted or accepted. *)
Definition resolves (t : Tick) : bool :=
  match t with
  | TickNotify o => negb (status_in (status o) [Submitted; Accepted])
  | _ => false
  end.

Definition resolutions (ts : list Tick) : nat := List.length (filter resolves ts).

(** One when no order is tracked, so that a bar may submit one. *)
Definition free_slot (st : EmaCrossStrategy) : nat :=
  match order st with
  | None => 1
  | Some _ => 0
  end.

End Strategy.

(** ** The timeframe suffix as the documentation words it *)



(** ** Fixtures *)

Definition demo_api : TradeLockerAPI := mk_api "key" false.

(** Daily bars from 2024-01-01 to 2024-01-03. *)
Definition three_day_params : Params :=
  mk_params (Some "AAPL"%string) "1d" (Some (Py.midnight 2024 1 1))
            (Some (Py.midnight 2024 1 3)) true (Some demo_api) None None.

(** Draws that keep every price at 100 and put every high 0.05 above and
    every low 0.05 below. *)
Definition flat_draws : Draws :=
  mk_draws (fun _ => 0%Q) (fun _ => 0%Q) (fun _ => (1 # 20)%Q)
           (fun _ => (1 # 20)%Q) (fun _ => 1000).

(** A draw of -0.05 for the high of the first bar (two standard deviations
    below the mean 0.05 of that normal distribution). *)
Definition low_high_draws : Draws :=
  mk_draws (fun _ => 0%Q) (fun _ => 0%Q) (fun _ => (-1 # 20)%Q)
           (fun _ => (1 # 20)%Q) (fun _ => 1000).

(** The feed built from parameters and started; [None] when construction
    or [start] raises. *)
Definition started (prm : Params) (fuel : nat) (clock : Py.datetime) (rnd : Draws)
    : option TradeLockerFeed :=
  match __init__ prm with
  | inr s =>
      match start fuel clock clock rnd s with
      | (Val _, s') => Some s'
      | _ => None
      end
  | inl _ => None
  end.

(** Saturday 2024-01-06, 12:00, and Thursday 2024-01-04, 12:00. *)
Definition saturday_noon : Env :=
  mk_env (Py.mk_datetime (Py.ymd2ord 2024 1 6) 12 0 0 0) 1704542400.

Definition thursday_noon : Env :=
  mk_env (Py.mk_datetime (Py.ymd2ord 2024 1 4) 12 0 0 0) 1704369600.

(** The feed that [start] leaves for [three_day_params] and [flat_draws]:
    three rows, last-known timestamp 2024-01-03, cursor at -1. *)
Definition three_day_feed : TradeLockerFeed :=
  mk_feed three_day_params (mk_api "key" true) false
          (Some (hist_rows flat_draws 0
                   [Py.midnight 2024 1 1; Py.midnight 2024 1 2; Py.midnight 2024 1 3]))
          true [] (Some (Py.midnight 2024 1 3)) None (Some (-1)) None.

(** A feed with the session window 09:30 to 16:00, in the live range. *)
Definition session_feed : TradeLockerFeed :=
  mk_feed (mk_params (Some "AAPL"%string) "1d" None None true (Some demo_api)
                     (Some "09:30"%string) (Some "16:00"%string))
          demo_api false (Some []) true [] None None (Some 0) None.

(** A feed whose requested range ends before it begins. *)
Definition backwards_feed : TradeLockerFeed :=
  mk_feed (mk_params (Some "AAPL"%string) "5h" (Some (Py.midnight 2024 1 3))
                     (Some (Py.midnight 2024 1 1)) true (Some demo_api) None None)
          demo_api true None false [] None None None None.

(** A strategy with one accepted buy order tracked. *)
Definition tracked_buy : Strategy.Order := Strategy.mk_order Strategy.Accepted true 0.

Definition waiting : Strategy.EmaCrossStrategy :=
  Strategy.mk_strategy (Some tracked_buy) 0 [] [Strategy.Buy].

(** Thursday 2024-01-04 at 16:00:01 and at 09:29, and Saturday noon. *)
Definition closed_clocks : list Env :=
  [mk_env (Py.mk_datetime (Py.ymd2ord 2024 1 4) 16 0 1 0) 0;
   mk_env (Py.mk_datetime (Py.ymd2ord 2024 1 4) 9 29 0 0) 0;
   saturday_noon].

(** ** Further predicates on feeds *)

(** The time-of-day fields of a datetime are in their ranges, as they are
    for every [datetime.datetime] object. *)
Definition valid_datetime (d : Py.datetime) : Prop :=
  0 <= Py.hour d < 24 /\ 0 <= Py.minute d < 60
  /\ 0 <= Py.second d < 60 /\ 0 <= Py.microsecond d < 1000000.

(** Minutes since midnight. *)
Definition minute_of_day (d : Py.datetime) : Z := Py.hour d * 60 + Py.minute d.

(** The bars waiting in the live buffer are in strictly increasing order
    of timestamp and none is later than the last-known timestamp. *)
Definition buffer_ordered (s : TradeLockerFeed) : Prop :=
  increasing (map datetime (live_buffer s))
  /\ forall b, In b (live_buffer s) ->
       exists t, last_bar_time s = Some t /\ Py.dt_leb (datetime b) t = true.

(** A method keeps a property of the feed, however it ends. *)
Definition preserves {A} (I : TradeLockerFeed -> Prop) (m : M A) : Prop :=
  forall s, I s -> I (snd (m s)).

(** ** Further fixtures *)

(** A feed with 15-minute bars, no session window, past its (empty) table. *)
Definition quarter_hour_feed : TradeLockerFeed :=
  mk_feed (mk_params (Some "AAPL"%string) "15h" None None true (Some demo_api) None None)
          demo_api true (Some []) true [] None None (Some 0) None.

(** Thursday 2024-01-04, 12:07:31. *)
Definition thursday_12_07 : Env :=
  mk_env (Py.mk_datetime (Py.ymd2ord 2024 1 4) 12 7 31 5) 1704370051.

(** The bar of 12:00 that the poll of 12:07:31 emits. *)
Definition noon_bar : Bar :=
  live_bar thursday_12_07 (Py.mk_datetime (Py.ymd2ord 2024 1 4) 12 0 0 0) None.

Definition after_bar (b : Bar) (s : TradeLockerFeed) : TradeLockerFeed :=
  set_last_bar_time (Some (datetime b)) (set_last_bar (Some b) s).

(** A feed whose intraday timeframe has a step of zero minutes. *)
Definition zero_step_feed : TradeLockerFeed :=
  mk_feed (mk_params (Some "AAPL"%string) "0h" None None true (Some demo_api) None None)
          demo_api true (Some []) true [] None None (Some 0) None.

(** The bar that the poll of Thursday noon emits on the three-day feed. *)
Definition thursday_bar : Bar :=
  live_bar thursday_noon (Py.midnight 2024 1 4) None.


(** [P] holds of every bar of a trading day of the range from [first] to
    [last], on the grid of [step] minutes from 09:30. *)
Definition intraday_bars_satisfy (P : Py.datetime -> Prop) (step : option Z)
    (first last : Py.datetime) : Prop :=
  forall day m bt,
  Py.ordinal first <= Py.ordinal day -> Py.dt_leb day last = true ->
  Py.weekday day < 5 -> 570 <= m < 960 ->
  (forall k, step = Some k -> (m - 570) mod k = 0) ->
  Py.replace day (m / 60) (m mod 60) 0 0 = Some bt -> P bt.

(** [P] holds of every business day of the range. *)
Definition daily_bars_satisfy (P : Py.datetime -> Prop)
    (first last : Py.datetime) : Prop :=
  forall day,
  Py.ordinal first <= Py.ordinal day -> Py.dt_leb day last = true ->
  Py.weekday day < 5 -> P day.

(** The three-day feed before its table is loaded. *)
Definition three_day_unloaded : TradeLockerFeed :=
  mk_feed three_day_params (mk_api "key" true) false None false [] None None
          (Some (-1)) None.

(** A feed before loading, asking for Monday 2024-01-01 in hourly steps. *)
Definition hourly_feed : TradeLockerFeed :=
  mk_feed (mk_params (Some "AAPL"%string) "60h" (Some (Py.midnight 2024 1 1))
                     (Some (Py.midnight 2024 1 1)) true (Some demo_api) None None)
          demo_api true None false [] None None None None.

(** A feed before loading, asking for Monday 2024-01-01 with a step of
    zero minutes. *)
Definition zero_step_unloaded : TradeLockerFeed :=
  mk_feed (mk_params (Some "AAPL"%string) "0h" (Some (Py.midnight 2024 1 1))
                     (Some (Py.midnight 2024 1 1)) true (Some demo_api) None None)
          demo_api true None false [] None None None None.

(** A feed started on an empty range: an empty table and the cursor at -1. *)
Definition empty_table_feed : TradeLockerFeed :=
  set_idx (-1) (set_hist [] None backwards_feed).

(** The three-day feed past its table, after the poll of Thursday noon
    put its bar in the live buffer. *)
Definition queued_feed : TradeLockerFeed :=
  set_live_buffer [thursday_bar] (after_bar thursday_bar (set_idx 3 three_day_feed)).

(** ** Setting up live trading *)

(** [TradeLockerAPI.disconnect] *)
Definition disconnect (a : TradeLockerAPI) : bool * TradeLockerAPI :=
  (true, mk_api (api_key a) false).

(** [s.split(sep)] for a separator of one character: the fields between
    the separators, at least one. *)
Fixpoint split_on (sep : ascii) (l : list ascii) : list (list ascii) :=
  match l with
  | [] => [[]]
  | c :: r =>
      if Ascii.eqb c sep then [] :: split_on sep r
      else
        match split_on sep r with
        | field :: fields => (c :: field) :: fields
        | [] => [[c]]
        end
  end.

(** The command-line arguments that [run_live_trading] passes on to the
    feeds. *)
Record Args : Type := mk_args {
  args_api_key : string;
  args_symbols : string;
  args_timeframe : string
}.

(** The parameters of the feed that [run_live_trading] builds for one
    symbol. *)
Definition live_params (trade_api : TradeLockerAPI) (tf : string)
    (from : Py.datetime) (sym : string) : Params :=
  mk_params (Some sym) tf (Some from) None true (Some trade_api)
            (Some "09:30"%string) (Some "16:00"%string).

(** The loop over the symbols: the feeds added to the engine so far and
    the exception that ended the loop, if any. [clock i] is the reading of
    the clock for the [i]-th symbol. *)
Fixpoint build_feeds (trade_api : TradeLockerAPI) (tf : string)
    (clock : nat -> Py.datetime) (i : nat) (symbols : list string)
    : list TradeLockerFeed * option Py.exn :=
  match symbols with
  | [] => ([], None)
  | sym :: rest =>
      match Py.add_days (clock i) (-365) with
      | None => ([], Some Py.OverflowError)
      | Some from =>
          match __init__ (live_params trade_api tf from sym) with
          | inl x => ([], Some x)
          | inr data =>
              let (feeds, err) := build_feeds trade_api tf clock (S i) rest in
              (data :: feeds, err)
          end
      end
  end.

(** How [run_live_trading] ends: without an API key it returns at once;
    otherwise with the feeds it built, the exception it caught, if any,
    and the API handle as it leaves it. *)
Inductive LiveOutcome : Type :=
| NoApiKey
| ConnectFailed
| Ended (feeds : list TradeLockerFeed) (err : option Py.exn) (trade_api : TradeLockerAPI).

Section LiveTrading.

(** [cerebro.run()] on the feeds: the framework's engine, which may raise
    and may use the API handle. *)
Variable cerebro_run :
  list TradeLockerFeed -> TradeLockerAPI -> option Py.exn * TradeLockerAPI.

(** [run_live_trading] *)
Definition run_live_trading (args : Args) (clock : nat -> Py.datetime) : LiveOutcome :=
  match args_api_key args with
  | EmptyString => NoApiKey
  | String _ _ =>
      let (ok, trade_api) := connect (mk_api (args_api_key args) false) in
      if negb ok then ConnectFailed
      else
        let symbols :=
          map string_of_list_ascii (split_on "," (Py.chars (args_symbols args))) in
        let (feeds, err) := build_feeds trade_api (args_timeframe args) clock 0 symbols in
        match err with
        | Some x => Ended feeds (Some x) (snd (disconnect trade_api))
        | None =>
            let (err', trade_api') := cerebro_run feeds trade_api in
            Ended feeds err' (snd (disconnect trade_api'))
        end
  end.

End LiveTrading.

(** The arguments of a live run on two symbols, and a clock. *)
Definition demo_args : Args := mk_args "secret" "AAPL,MSFT" "1d".

Definition demo_clock (i : nat) : Py.datetime := Py.midnight 2024 1 10.

(** The session window of every feed that [run_live_trading] builds. *)
Definition live_session (e : Env) : bool :=
  Py.time_leb (Py.mk_time 9 30 0 0) (Py.time_of (now e))
  && Py.time_leb (Py.time_of (now e)) (Py.mk_time 16 0 0 0).

Definition idle_engine (feeds : list TradeLockerFeed) (a : TradeLockerAPI)
  : option Py.exn * TradeLockerAPI := (None, a).

(** A live run with an empty timeframe. *)
Definition no_timeframe_args : Args := mk_args "secret" "AAPL,MSFT" EmptyString.

(** ** The table and the live side *)

(** The table of [s] is [rows], no row is later than the last-known
    timestamp, and every row is strictly earlier than every bar waiting in
    the live buffer. *)
Definition table_behind (rows : list Bar) (s : TradeLockerFeed) : Prop :=
  hist_data s = Some rows
  /\ (forall row, In row rows ->
       exists t, last_bar_time s = Some t /\ Py.dt_leb (datetime row) t = true)
  /\ (forall row b, In row rows -> In b (live_buffer s) ->
       Py.dt_ltb (datetime row) (datetime b) = true).


(** The rows of the three-day table. *)
Definition three_rows : list Bar :=
  hist_rows flat_draws 0
    [Py.midnight 2024 1 1; Py.midnight 2024 1 2; Py.midnight 2024 1 3].


(** The table is behind the live side and the feed was built with
    [historical] on. *)
Definition loaded_behind (rows : list Bar) (s : TradeLockerFeed) : Prop :=
  table_behind rows s /\ historical (p s) = true.

(** * Properties *)

(** Unfolding of the monad of methods. *)
Ltac run_m :=
  cbv beta iota zeta delta [bind gets ret raise modify or_raise lift] in *.

Ltac reads_done :=
  first [ left; eexists; reflexivity | right; eexists; reflexivity ].

Example int_examples :
  map (fun s => Py.int (Py.chars s))
      ["5"; " 15 "; "+5"; "-30"; "5_0"; "007"; "_5"; "5_"; "5__0"; "+ 5"; "-"; "1.5"]%string
  = [Some 5; Some 15; Some 5; Some (-30); Some 50; Some 7; None; None; None; None; None; None].
Proof. reflexivity. Qed.

Example strptime_examples :
  map (fun s => Py.strptime_HM (Py.chars s))
      ["9:30"; "09:30"; "23:59"; "9:5"; "0:0"; "24:00"; "9:60"; "930"; "09:30 "; " 09:30"; "19:5x"]%string
  = [Some (Py.mk_time 9 30 0 0); Some (Py.mk_time 9 30 0 0);
     Some (Py.mk_time 23 59 0 0); Some (Py.mk_time 9 5 0 0);
     Some (Py.mk_time 0 0 0 0); None; None; None; None; None; None].
Proof. reflexivity. Qed.

Example calendar_examples :
  Py.ymd2ord 2024 1 1 = 738886 /\ Py.weekday (Py.midnight 2024 1 1) = 0
  /\ Py.ymd2ord 9999 12 31 = Py._MAXORDINAL
  /\ Py.weekday (Py.midnight 2024 1 6) = 5.
Proof. repeat split; reflexivity. Qed.
(** ** Order on datetimes *)

Lemma lex_compare_antisym (a : list Z) :
  forall b, Py.lex_compare b a = CompOpp (Py.lex_compare a b).
Proof.
  induction a as [|x a IH]; intros [|y b]; simpl; try reflexivity.
  rewrite (Z.compare_antisym x y).
  destruct (x ?= y); simpl; auto.
Qed.

Lemma dt_leb_false_ltb (a b : Py.datetime) :
  Py.dt_leb a b = false -> Py.dt_ltb b a = true.
Proof.
  unfold Py.dt_leb, Py.dt_ltb, Py.dt_compare.
  rewrite (lex_compare_antisym (Py.dt_fields a) (Py.dt_fields b)).
  destruct (Py.lex_compare (Py.dt_fields a) (Py.dt_fields b)); simpl; congruence.
Qed.

Lemma dt_ltb_leb_false (a b : Py.datetime) :
  Py.dt_ltb b a = true -> Py.dt_leb a b = false.
Proof.
  unfold Py.dt_leb, Py.dt_ltb, Py.dt_compare.
  rewrite (lex_compare_antisym (Py.dt_fields a) (Py.dt_fields b)).
  destruct (Py.lex_compare (Py.dt_fields a) (Py.dt_fields b)); simpl; congruence.
Qed.

(** ** Construction *)

(** C7. Construction raises [ValueError] exactly when the API handle or the
    symbol is missing; a construction that raises returns no feed. *)
Theorem init_requires_api_and_symbol (prm : Params) :
  ((exists msg, __init__ prm = inl (Py.ValueError msg))
   <-> (api prm = None \/ symbol prm = None))
  /\ (api prm = None \/ symbol prm = None -> forall s, __init__ prm <> inr s).
Proof.
  unfold __init__.
  destruct (api prm) as [a|], (symbol prm) as [sym|];
    try destruct (Py.last_char (Py.chars (timeframe prm)));
    (split; [split|]).
  all: try (intros [msg H]; try discriminate H; auto; fail).
  all: try (intros [H|H]; try discriminate H; eauto; fail).
  all: try (intros [H|H] s E; discriminate; fail).
Qed.

Lemma init_requires_api_and_symbol_witness :
  (forall s, __init__ (mk_params None "1d" None None true (Some demo_api) None None) <> inr s)
  /\ (forall s, __init__ (mk_params (Some "AAPL"%string) "1d" None None true None None None) <> inr s).
Proof.
  split.
  - apply (proj2 (init_requires_api_and_symbol
                    (mk_params None "1d" None None true (Some demo_api) None None))).
    right; reflexivity.
  - apply (proj2 (init_requires_api_and_symbol
                    (mk_params (Some "AAPL"%string) "1d" None None true None None None))).
    left; reflexivity.
Defined.

(** C10. In every state of the feed, also while rows of the table are
    still to be served and whatever the [historical] setting, [islive]
    returns true (and changes nothing). *)
Theorem islive_always_true (s : TradeLockerFeed) : islive s = (Val true, s).
Proof. reflexivity. Qed.
(** ** The timeframe *)










(** ** The pending-order gate of the strategy *)

Lemma notify_unresolved_keeps (o : Strategy.Order) (st : Strategy.EmaCrossStrategy) :
  Strategy.status_in (Strategy.status o) [Strategy.Submitted; Strategy.Accepted] = true ->
  Strategy.notify_order o st = st.
Proof. intros H. unfold Strategy.notify_order. now rewrite H. Qed.

Lemma next_pending_keeps (st : Strategy.EmaCrossStrategy) (o : Strategy.Order)
    (crossover : Z) (created : Strategy.Order) :
  Strategy.order st = Some o -> Strategy.next crossover created st = st.
Proof. intros H. unfold Strategy.next. now rewrite H. Qed.

(** C9, as the code has it. While an order is tracked, bars and
    submitted/accepted reports submit nothing and leave the strategy as it
    is; a report that the order is completed, canceled, margin-called,
    rejected or expired clears the tracking; and a bar submits an order
    only when no order is tracked. *)
Theorem pending_order_gate (st : Strategy.EmaCrossStrategy) (o : Strategy.Order)
    (evs : list Strategy.Event) :
  Strategy.order st = Some o ->
  forallb Strategy.unresolved evs = true ->
  Strategy.run evs st = st
  /\ (forall n,
        In (Strategy.status n)
           [Strategy.Completed; Strategy.Canceled; Strategy.Margin;
            Strategy.Rejected; Strategy.Expired] ->
        Strategy.order (Strategy.notify_order n (Strategy.run evs st)) = None)
  /\ (forall st' crossover created,
        Strategy.submitted (Strategy.next crossover created st')
          <> Strategy.submitted st' ->
        Strategy.order st' = None).
Proof.
  intros Ho Hevs.
  assert (Hrun : Strategy.run evs st = st).
  { unfold Strategy.run. induction evs as [|ev evs IH]; [reflexivity|].
    simpl in Hevs. apply andb_true_iff in Hevs as [Hev Hevs]. simpl.
    destruct ev as [crossover created | n]; simpl.
    - rewrite (next_pending_keeps st o crossover created Ho). now apply IH.
    - rewrite (notify_unresolved_keeps n st Hev). now apply IH. }
  split; [exact Hrun|]. split.
  - intros n Hn. rewrite Hrun. unfold Strategy.notify_order.
    simpl in Hn.
    destruct Hn as [H|[H|[H|[H|[H|[]]]]]]; rewrite <- H; simpl;
      try destruct (Strategy.isbuy n); reflexivity.
  - intros st' crossover created Hsub.
    destruct (Strategy.order st') eqn:E; [|reflexivity].
    exfalso. apply Hsub. now rewrite (next_pending_keeps st' o0 crossover created E).
Qed.

Lemma pending_order_gate_witness :
  Strategy.run [Strategy.OnBar 1 tracked_buy; Strategy.OnNotify tracked_buy;
                Strategy.OnBar (-1) tracked_buy] waiting = waiting.
Proof.
  apply (pending_order_gate waiting tracked_buy
           [Strategy.OnBar 1 tracked_buy; Strategy.OnNotify tracked_buy;
            Strategy.OnBar (-1) tracked_buy] eq_refl eq_refl).
Defined.

(** C9, as stated, fails: a report that the tracked order expired is none
    of completed, canceled, margin-called or rejected, yet it clears the
    tracking, and the next bar with a golden cross submits a second buy. *)
Lemma expired_report_reopens_gate :
  let expired := Strategy.mk_order Strategy.Expired true 0 in
  let st1 := Strategy.notify_order expired waiting in
  Strategy.order waiting = Some tracked_buy
  /\ ~ In (Strategy.status expired)
          [Strategy.Completed; Strategy.Canceled; Strategy.Margin; Strategy.Rejected]
  /\ Strategy.order st1 = None
  /\ Strategy.submitted (Strategy.next 1 tracked_buy st1)
     = [Strategy.Buy; Strategy.Buy].
Proof.
  repeat split; try reflexivity.
  simpl. intros [H|[H|[H|[H|[]]]]]; discriminate H.
Qed.

(** ** The live poller *)

Lemma or_raise_reads {A} (x : Py.exn) (o : option A) : reads (or_raise x o).
Proof. intros s. destruct o; run_m; reads_done. Qed.

Lemma minutes_timeframe_reads : reads minutes_timeframe.
Proof.
  intros s. unfold minutes_timeframe. run_m.
  destruct (Py.int _); reads_done.
Qed.

Lemma is_trading_hours_reads (e : Env) : reads (is_trading_hours e).
Proof.
  intros s. unfold is_trading_hours. run_m.
  destruct (truthy _ && truthy _); [|reads_done].
  destruct (Py.strptime_HM (Py.chars (str_of (sessionstart (p s))))); [|reads_done].
  destruct (Py.strptime_HM (Py.chars (str_of (sessionend (p s))))); reads_done.
Qed.

Lemma bar_time_reads (e : Env) : reads (bar_time e).
Proof.
  intros s. unfold bar_time, minutes_timeframe. run_m.
  destruct (intraday s).
  - destruct (Py.int _) as [k|]; [|reads_done].
    destruct (k =? 0); [reads_done|].
    destruct (Py.replace _ _ _ _ _); reads_done.
  - destruct (Py.replace _ _ _ _ _); reads_done.
Qed.

(** The three ways a poll can end. *)
Lemma fetch_live_bar_cases (e : Env) (s : TradeLockerFeed) :
  (exists x, _fetch_live_bar e s = (Exc x, s))
  \/ _fetch_live_bar e s = (Val None, s)
  \/ (exists b,
        _fetch_live_bar e s
        = (Val (Some b), set_last_bar_time (Some (datetime b)) (set_last_bar (Some b) s))
        /\ match last_bar_time s with
           | Some t => Py.dt_leb (datetime b) t = false
           | None => True
           end).
Proof.
  unfold _fetch_live_bar, bind.
  destruct (is_trading_hours_reads e s) as [[trading ->]|[x ->]]; [|eauto].
  destruct (negb (trading && (Py.weekday (now e) <? 5))); [unfold ret; eauto|].
  destruct (bar_time_reads e s) as [[bt ->]|[x ->]]; [|eauto].
  unfold gets, modify, ret.
  destruct (last_bar_time s) as [t|] eqn:Et.
  - destruct (Py.dt_leb bt t) eqn:El; [eauto|].
    right; right. exists (live_bar e bt (last_bar s)).
    assert (Hd : datetime (live_bar e bt (last_bar s)) = bt)
      by (destruct (last_bar s); reflexivity).
    rewrite Hd. split; [reflexivity | exact El].
  - right; right. exists (live_bar e bt (last_bar s)).
    assert (Hd : datetime (live_bar e bt (last_bar s)) = bt)
      by (destruct (last_bar s); reflexivity).
    rewrite Hd. split; [reflexivity | exact I].
Qed.

(** C4. With last-known timestamp [T], one run of the live poller leaves
    the feed as it was (no bar, or an exception), or appends exactly one
    bar to the live buffer, whose timestamp is strictly greater than [T]
    and becomes the last-known timestamp. *)
Theorem live_poll_after_last_bar_time (e : Env) (s : TradeLockerFeed)
    (T : Py.datetime) :
  last_bar_time s = Some T ->
  match _load_next_live_bar e s with
  | (Val true, s') =>
      exists b, live_buffer s' = live_buffer s ++ [b]
                /\ Py.dt_ltb T (datetime b) = true
                /\ last_bar_time s' = Some (datetime b)
                /\ _fetch_live_bar e s = (Val (Some b), set_live_buffer (live_buffer s) s')
  | (Val false, s') => s' = s /\ _fetch_live_bar e s = (Val None, s)
  | (Exc x, s') => s' = s
  | (OutOfFuel, _) => False
  end.
Proof.
  intros HT. unfold _load_next_live_bar, bind.
  destruct (fetch_live_bar_cases e s) as [[x ->]|[->|[b [-> Hb]]]].
  - reflexivity.
  - unfold ret. split; reflexivity.
  - unfold modify, ret. simpl. exists b. rewrite HT in Hb.
    split; [reflexivity|]. split; [now apply dt_leb_false_ltb|].
    split; reflexivity.
Qed.

Lemma live_poll_after_last_bar_time_witness :
  match _load_next_live_bar thursday_noon three_day_feed with
  | (Val true, s') =>
      exists b, live_buffer s' = live_buffer three_day_feed ++ [b]
                /\ Py.dt_ltb (Py.midnight 2024 1 3) (datetime b) = true
                /\ last_bar_time s' = Some (datetime b)
                /\ _fetch_live_bar thursday_noon three_day_feed
                   = (Val (Some b), set_live_buffer (live_buffer three_day_feed) s')
  | (Val false, s') =>
      s' = three_day_feed
      /\ _fetch_live_bar thursday_noon three_day_feed = (Val None, three_day_feed)
  | (Exc x, s') => s' = three_day_feed
  | (OutOfFuel, _) => False
  end.
Proof.
  exact (live_poll_after_last_bar_time thursday_noon three_day_feed
           (Py.midnight 2024 1 3) eq_refl).
Defined.

Lemma strptime_truthy (txt : string) (t : Py.time) :
  Py.strptime_HM (Py.chars txt) = Some t -> truthy (Some txt) = true.
Proof. destruct txt; [discriminate | reflexivity]. Qed.

Lemma fetch_live_bar_closed (e : Env) (s : TradeLockerFeed) (ss se : string)
    (ts te : Py.time) :
  sessionstart (p s) = Some ss -> sessionend (p s) = Some se ->
  Py.strptime_HM (Py.chars ss) = Some ts ->
  Py.strptime_HM (Py.chars se) = Some te ->
  session_closed ts te e ->
  _fetch_live_bar e s = (Val None, s).
Proof.
  intros Hs He Hts Hte Hc.
  unfold _fetch_live_bar, is_trading_hours. run_m.
  rewrite Hs, He, (strptime_truthy ss ts Hts), (strptime_truthy se te Hte).
  cbn [andb str_of]. rewrite Hts, Hte.
  destruct Hc as [Hc|Hc].
  - rewrite Hc. reflexivity.
  - assert (Hw : (Py.weekday (now e) <? 5) = false) by (apply Z.ltb_ge; exact Hc).
    rewrite Hw, andb_false_r. reflexivity.
Qed.

(** C5. With a session window configured, polls made while the clock is
    outside the window, or on a Saturday or Sunday, produce no bar and
    leave the feed as it was, however many there are. *)
Theorem closed_session_emits_nothing (es : list Env) (s : TradeLockerFeed)
    (ss se : string) (ts te : Py.time) :
  sessionstart (p s) = Some ss -> sessionend (p s) = Some se ->
  Py.strptime_HM (Py.chars ss) = Some ts ->
  Py.strptime_HM (Py.chars se) = Some te ->
  Forall (session_closed ts te) es ->
  poll_all es s = (map (fun _ => Val None) es, s).
Proof.
  intros Hs He Hts Hte Hall.
  induction Hall as [|e es Hc Hall IH]; [reflexivity|].
  simpl. rewrite (fetch_live_bar_closed e s ss se ts te Hs He Hts Hte Hc), IH.
  reflexivity.
Qed.

Lemma closed_session_emits_nothing_witness :
  poll_all closed_clocks session_feed = ([Val None; Val None; Val None], session_feed).
Proof.
  apply (closed_session_emits_nothing closed_clocks session_feed "09:30" "16:00"
           (Py.mk_time 9 30 0 0) (Py.mk_time 16 0 0 0)
           eq_refl eq_refl eq_refl eq_refl).
  repeat constructor; vm_compute; intuition congruence.
Defined.

(** ** The historical loader *)

Lemma hist_dates_empty_range (fuel : nat) (intr : bool) (step : option Z)
    (first last : Py.datetime) (dates : list Py.datetime) :
  Py.dt_ltb last first = true ->
  hist_dates fuel intr step first last dates = Val dates.
Proof.
  intros H. apply dt_ltb_leb_false in H.
  destruct fuel; simpl; rewrite H; reflexivity.
Qed.

(** C6. When the requested range begins after it ends ([fromdate] after
    [todate], each replaced by its default from the clock when absent), the
    loader returns normally with an empty table, whatever the clock, the
    draws and the iteration budget. *)
Theorem empty_range_loads_nothing (s : TradeLockerFeed) (first : Py.datetime)
    (fuel : nat) (now_start now_end : Py.datetime) (rnd : Draws) :
  start_date (p s) now_start = Some first ->
  Py.dt_ltb (end_date (p s) now_end) first = true ->
  exists s',
    _load_historical_data fuel now_start now_end rnd s = (Val tt, s')
    /\ hist_data s' = Some [] /\ hist_loaded s' = true
    /\ s' = set_hist [] (last_bar_time s) s.
Proof.
  intros Hf Hlt.
  unfold _load_historical_data. run_m.
  rewrite Hf, (hist_dates_empty_range _ _ _ first _ [] Hlt).
  eexists. repeat split.
Qed.

Lemma empty_range_loads_nothing_witness :
  exists s',
    _load_historical_data 0 (Py.midnight 2024 1 10) (Py.midnight 2024 1 10) flat_draws
      backwards_feed
    = (Val tt, s')
    /\ hist_data s' = Some [].
Proof.
  destruct (empty_range_loads_nothing backwards_feed
              (Py.midnight 2024 1 3) 0
              (Py.midnight 2024 1 10) (Py.midnight 2024 1 10) flat_draws
              eq_refl eq_refl) as (s' & H1 & H2 & _).
  exists s'. split; assumption.
Defined.

(** ** The cursor *)

Lemma load_next_live_bar_cursor (e : Env) (s : TradeLockerFeed) :
  same_cursor s (snd (_load_next_live_bar e s)).
Proof.
  unfold _load_next_live_bar, bind.
  destruct (fetch_live_bar_cases e s) as [[x ->]|[->|[b [-> _]]]];
    split; reflexivity.
Qed.

Lemma in_live_range_same_cursor (s s' : TradeLockerFeed) :
  in_live_range s -> same_cursor s s' -> in_live_range s'.
Proof.
  intros (rows & i & Hh & Hi & Hle) [Hh' Hi'].
  exists rows, i. rewrite Hh', Hi'. auto.
Qed.

Lemma idx_in_table_live (s : TradeLockerFeed) :
  in_live_range s -> idx_in_table s = (Val false, s).
Proof.
  intros (rows & i & Hh & Hi & Hle).
  unfold idx_in_table, get_idx, len_hist_data. run_m. rewrite Hi.
  destruct (0 <=? i); [|reflexivity].
  cbv beta. rewrite Hh.
  assert (E : (i <? Z.of_nat (List.length rows)) = false) by (apply Z.ltb_ge; lia).
  now rewrite E.
Qed.

Lemma next_live_range (e : Env) (s : TradeLockerFeed) :
  in_live_range s -> next e s = _next_live e s.
Proof.
  intros (rows & i & Hh & Hi & Hle).
  unfold next, get_idx, len_hist_data. run_m. rewrite Hi.
  assert (E1 : (i <? Z.of_nat (List.length rows) - 1) = false) by (apply Z.ltb_ge; lia).
  assert (E2 : (i =? Z.of_nat (List.length rows) - 1) = false) by (apply Z.eqb_neq; lia).
  destruct (0 <=? i); cbv beta; rewrite Hh, ?E1; cbv iota beta; rewrite ?Hh, E2;
    reflexivity.
Qed.

Lemma load_bar_live_range (e : Env) (s : TradeLockerFeed) :
  in_live_range s -> same_cursor s (snd (_load_bar e s)).
Proof.
  intros Hlive. unfold _load_bar, _get_bar, bind.
  rewrite (idx_in_table_live s Hlive). unfold gets.
  destruct (live_buffer s) as [|b rest] eqn:Eb.
  - pose proof (load_next_live_bar_cursor e s) as Hc.
    destruct (_load_next_live_bar e s) as [[[]| |] s1]; simpl in Hc |- *;
      try exact Hc.
    destruct (live_buffer s1); simpl; exact Hc.
  - unfold ret. simpl. rewrite Eb. simpl. split; reflexivity.
Qed.

Lemma call_live_range (c : Call) (s : TradeLockerFeed) :
  in_live_range s -> same_cursor s (snd (call c s)).
Proof.
  intros Hlive. destruct c as [e|e]; simpl.
  - rewrite (next_live_range e s Hlive). apply load_next_live_bar_cursor.
  - now apply load_bar_live_range.
Qed.

(** Before the first row, with a table that is not empty, [next] goes
    straight to the live poller. *)
Lemma next_before_table (e : Env) (s : TradeLockerFeed) (rows : list Bar) :
  hist_data s = Some rows -> rows <> [] -> _idx s = Some (-1) ->
  next e s = _next_live e s.
Proof.
  intros Hh Hne Hi. unfold next, get_idx, len_hist_data. run_m.
  rewrite Hi. cbn [Z.leb Z.compare]. cbv iota beta. rewrite Hh.
  assert (E : (-1 =? Z.of_nat (List.length rows) - 1) = false).
  { apply Z.eqb_neq. destruct rows; [congruence | simpl List.length; lia]. }
  now rewrite E.
Qed.

Lemma advance_all_before_table (es : list Env) (s : TradeLockerFeed)
    (rows : list Bar) :
  hist_data s = Some rows -> rows <> [] -> _idx s = Some (-1) ->
  same_cursor s (snd (advance_all es s)).
Proof.
  revert s. induction es as [|e es IH]; intros s Hh Hne Hi; simpl.
  - split; reflexivity.
  - rewrite (next_before_table e s rows Hh Hne Hi). unfold _next_live.
    pose proof (load_next_live_bar_cursor e s) as [Hc1 Hc2].
    destruct (_load_next_live_bar e s) as [r s1]. simpl in Hc1, Hc2.
    assert (Hh1 : hist_data s1 = Some rows) by congruence.
    assert (Hi1 : _idx s1 = Some (-1)) by congruence.
    pose proof (IH s1 Hh1 Hne Hi1) as [H1 H2].
    destruct (advance_all es s1) as [rs s2]. simpl in *.
    split; congruence.
Qed.

(** C1, on the code. The feed started on the three daily bars of
    2024-01-01 to 2024-01-03 has its cursor at -1, and [next] never moves
    it from there: with a clock on which the live poller yields nothing
    the first four calls all return false, and with a weekday clock the
    first call returns true for a live bar dated by the clock, which
    [_load_bar] then makes the current bar. *)
Theorem next_never_enters_table :
  started three_day_params 10 (Py.midnight 2024 1 10) flat_draws = Some three_day_feed
  /\ map datetime (hist_rows flat_draws 0
                     [Py.midnight 2024 1 1; Py.midnight 2024 1 2; Py.midnight 2024 1 3])
     = [Py.midnight 2024 1 1; Py.midnight 2024 1 2; Py.midnight 2024 1 3]
  /\ advance_all [saturday_noon; saturday_noon; saturday_noon; saturday_noon]
                 three_day_feed
     = ([Val false; Val false; Val false; Val false], three_day_feed)
  /\ (forall es, _idx (snd (advance_all es three_day_feed)) = Some (-1))
  /\ (let (rs, s') := call_all [CallNext thursday_noon; CallLoadBar thursday_noon]
                               three_day_feed in
      rs = [Val true; Val true]
      /\ option_map datetime (lines s') = Some (Py.midnight 2024 1 4)
      /\ _idx s' = Some (-1)).
Proof.
  split; [reflexivity|]. split; [reflexivity|]. split; [reflexivity|]. split.
  - intros es.
    destruct (advance_all_before_table es three_day_feed
                (hist_rows flat_draws 0
                   [Py.midnight 2024 1 1; Py.midnight 2024 1 2; Py.midnight 2024 1 3])
                eq_refl) as [_ H]; [discriminate | reflexivity | exact H].
  - vm_compute. repeat split.
Qed.

(** C3, on the code. With a draw of -0.05 for the high of the first bar
    the loader returns a table whose first row has its high below its open
    and close. *)
Theorem loader_high_below_open_close :
  exists s b rest,
    started three_day_params 10 (Py.midnight 2024 1 10) low_high_draws = Some s
    /\ hist_data s = Some (b :: rest)
    /\ (open b == 100)%Q /\ (close b == 100)%Q /\ (high b == 1999 # 20)%Q
    /\ (high b < qmax (open b) (close b))%Q.
Proof.
  do 3 eexists. split; [vm_compute; reflexivity|].
  split; [reflexivity|]. repeat split.
Qed.

(** ** Timestamps of the loaded table *)

Lemma dt_ltb_ordinal (a b : Py.datetime) :
  Py.ordinal a < Py.ordinal b -> Py.dt_ltb a b = true.
Proof.
  intros H. unfold Py.dt_ltb, Py.dt_compare, Py.dt_fields. simpl.
  apply Z.compare_lt_iff in H. now rewrite H.
Qed.

Lemma dt_ltb_same_day (a b : Py.datetime) :
  Py.ordinal a = Py.ordinal b ->
  0 <= Py.minute a < 60 -> 0 <= Py.minute b < 60 ->
  Py.hour a * 60 + Py.minute a < Py.hour b * 60 + Py.minute b ->
  Py.dt_ltb a b = true.
Proof.
  intros Ho Ha Hb Hlt. unfold Py.dt_ltb, Py.dt_compare, Py.dt_fields. simpl.
  rewrite Ho, Z.compare_refl.
  destruct (Z.compare_spec (Py.hour a) (Py.hour b)) as [Hh|Hh|Hh];
    [|reflexivity|lia].
  destruct (Z.compare_spec (Py.minute a) (Py.minute b)); [lia|reflexivity|lia].
Qed.

Lemma increasing_snoc (ds : list Py.datetime) (d : Py.datetime) :
  increasing ds -> Forall (fun x => Py.dt_ltb x d = true) ds ->
  increasing (ds ++ [d]).
Proof.
  unfold increasing. intros Hs Hall.
  induction Hs as [|x ds Hs IH Hx]; simpl.
  - repeat constructor.
  - inversion Hall as [|? ? Hxd Hall']; subst.
    constructor; [now apply IH|].
    apply Forall_app. split; [exact Hx | now constructor].
Qed.

Lemma replace_fields (d bt : Py.datetime) (h m s us : Z) :
  Py.replace d h m s us = Some bt ->
  Py.ordinal bt = Py.ordinal d /\ Py.hour bt = h /\ Py.minute bt = m
  /\ 0 <= m < 60.
Proof.
  unfold Py.replace. intros H.
  destruct ((0 <=? h) && (h <=? 23) && (0 <=? m) && (m <=? 59)
            && (0 <=? s) && (s <=? 59) && (0 <=? us) && (us <=? 999999)) eqn:E;
    [|discriminate H].
  injection H as <-. simpl.
  repeat (apply andb_true_iff in E as [E ?]). lia.
Qed.

(** With a step that is not positive the loop of a trading day never
    finishes normally. *)
Lemma session_bars_needs_progress (fuel : nat) (k : Z) (cur : Py.datetime) :
  k <= 0 -> forall minutes dates ds,
  minutes < 16 * 60 ->
  session_bars fuel (Some k) cur minutes dates <> Val ds.
Proof.
  intros Hk. induction fuel as [|fuel IH]; intros minutes dates ds Hm; simpl.
  - assert (E : (minutes <? 960) = true) by (apply Z.ltb_lt; lia).
    rewrite E. discriminate.
  - assert (E : (minutes <? 960) = true) by (apply Z.ltb_lt; lia).
    rewrite E.
    destruct (Py.replace cur (minutes / 60) (minutes mod 60) 0 0); [|discriminate].
    apply IH. lia.
Qed.

Lemma session_bars_increasing (fuel : nat) (step : option Z) (cur : Py.datetime) :
  forall minutes dates ds,
  session_bars fuel step cur minutes dates = Val ds ->
  increasing dates -> Forall (before_minute cur minutes) dates ->
  increasing ds /\ Forall (fun d => Py.ordinal d <= Py.ordinal cur) ds.
Proof.
  induction fuel as [|fuel IH]; intros minutes dates ds; simpl;
    destruct (minutes <? 960) eqn:E.
  - discriminate.
  - intros [= <-] Hs Hall. split; [exact Hs|].
    eapply Forall_impl; [|exact Hall]. unfold before_minute. intros d; lia.
  - destruct (Py.replace cur (minutes / 60) (minutes mod 60) 0 0) as [bt|] eqn:Er;
      [|discriminate].
    destruct step as [k|]; [|discriminate].
    intros Hrun Hs Hall.
    destruct (replace_fields _ _ _ _ _ _ Er) as (Ho & Hh & Hm & Hrange).
    assert (Hk : 0 < k).
    { destruct (Z.lt_ge_cases 0 k) as [|Hle]; [assumption|]. exfalso.
      apply Z.ltb_lt in E.
      apply (session_bars_needs_progress fuel k cur Hle (minutes + k)
               (dates ++ [bt]) ds); [lia | exact Hrun]. }
    assert (Hbt : Py.hour bt * 60 + Py.minute bt = minutes).
    { rewrite Hh, Hm. pose proof (Z.div_mod minutes 60). lia. }
    apply (IH (minutes + k) (dates ++ [bt]) ds Hrun).
    + apply increasing_snoc; [exact Hs|].
      eapply Forall_impl; [|exact Hall]. intros d [Hd|(Hd1 & Hd2 & Hd3)].
      * apply dt_ltb_ordinal. lia.
      * apply dt_ltb_same_day; lia.
    + apply Forall_app. split.
      * eapply Forall_impl; [|exact Hall]. unfold before_minute. intros d; lia.
      * constructor; [|constructor]. right. rewrite Hm. lia.
  - intros [= <-] Hs Hall. split; [exact Hs|].
    eapply Forall_impl; [|exact Hall]. unfold before_minute. intros d; lia.
Qed.

Lemma add_days_ordinal (d d' : Py.datetime) (n : Z) :
  Py.add_days d n = Some d' -> Py.ordinal d' = Py.ordinal d + n.
Proof.
  unfold Py.add_days.
  destruct ((0 <? Py.ordinal d + n) && (Py.ordinal d + n <=? Py._MAXORDINAL));
    [intros [= <-]; reflexivity | discriminate].
Qed.

Lemma hist_dates_increasing (fuel : nat) (intr : bool) (step : option Z)
    (last : Py.datetime) :
  forall cur dates ds,
  hist_dates fuel intr step cur last dates = Val ds ->
  increasing dates ->
  Forall (fun d => Py.ordinal d < Py.ordinal cur) dates ->
  increasing ds.
Proof.
  induction fuel as [|fuel IH]; intros cur dates ds; cbn [hist_dates];
    destruct (Py.dt_leb cur last).
  - discriminate.
  - now intros [= <-].
  - intros Hrun Hs Hall.
    assert (Hday : forall dates',
               increasing dates' ->
               Forall (fun d => Py.ordinal d <= Py.ordinal cur) dates' ->
               match Py.add_days cur 1 with
               | Some next_date => hist_dates fuel intr step next_date last dates'
               | None => Exc Py.OverflowError
               end = Val ds -> increasing ds).
    { intros dates' Hs' Hall' Hrun'.
      destruct (Py.add_days cur 1) as [next_date|] eqn:En; [|discriminate].
      apply (IH next_date dates' ds Hrun' Hs').
      rewrite (add_days_ordinal _ _ _ En).
      eapply Forall_impl; [|exact Hall']. intros d; simpl; lia. }
    assert (Hle : Forall (fun d => Py.ordinal d <= Py.ordinal cur) dates)
      by (eapply Forall_impl; [|exact Hall]; intros d; simpl; lia).
    destruct intr, (Py.weekday cur <? 5).
    + destruct (session_bars (S fuel) step cur (9 * 60 + 30) dates)
        as [dates'| |] eqn:Es; try discriminate.
      destruct (session_bars_increasing _ _ _ _ _ _ Es Hs) as [Hs' Hall'].
      { eapply Forall_impl; [|exact Hall]. intros d Hd. now left. }
      now apply (Hday dates').
    + apply (Hday dates); [exact Hs | exact Hle | exact Hrun].
    + apply (Hday (dates ++ [cur])); [| |exact Hrun].
      * apply increasing_snoc; [exact Hs|].
        eapply Forall_impl; [|exact Hall]. intros d. apply dt_ltb_ordinal.
      * apply Forall_app. split; [exact Hle|]. constructor; [lia|constructor].
    + apply (Hday dates); [exact Hs | exact Hle | exact Hrun].
  - now intros [= <-].
Qed.

Lemma hist_rows_datetime (rnd : Draws) (dates : list Py.datetime) :
  forall i, map datetime (hist_rows rnd i dates) = dates.
Proof.
  induction dates as [|d dates IH]; intros i; simpl; [reflexivity|].
  now rewrite IH.
Qed.

(** Whenever the loader returns, the timestamps of the table it stored
    are strictly increasing, for daily and for intraday timeframes. *)
Theorem hist_rows_increasing (fuel : nat) (now_start now_end : Py.datetime)
    (rnd : Draws) (s s' : TradeLockerFeed) :
  _load_historical_data fuel now_start now_end rnd s = (Val tt, s') ->
  exists rows, hist_data s' = Some rows /\ increasing (map datetime rows).
Proof.
  unfold _load_historical_data. run_m.
  destruct (start_date (p s) now_start) as [first|]; [|discriminate].
  destruct (hist_dates fuel (intraday s)
              (Py.int (Py.but_last (Py.chars (timeframe (p s)))))
              first (end_date (p s) now_end) []) as [dates| |] eqn:E;
    try discriminate.
  apply hist_dates_increasing in E; [|constructor|constructor].
  destruct dates as [|d r]; intros [= <-]; simpl.
  - exists []. split; [reflexivity | constructor].
  - eexists. split; [reflexivity|].
    change (hist_row rnd 0 d :: hist_rows rnd 1 r) with (hist_rows rnd 0 (d :: r)).
    now rewrite hist_rows_datetime.
Qed.

(** With a budget of one iteration per day of the range (and one to
    spare), the daily loader returns. *)
Lemma hist_dates_daily_returns (step : option Z) (last : Py.datetime) :
  Py.ordinal last <= Py._MAXORDINAL - 1 ->
  forall fuel cur dates,
  0 < Py.ordinal cur ->
  Py.ordinal last - Py.ordinal cur < Z.of_nat fuel ->
  exists ds, hist_dates fuel false step cur last dates = Val ds.
Proof.
  intros Hmax. induction fuel as [|fuel IH]; intros cur dates Hpos Hfuel; simpl.
  - destruct (Py.dt_leb cur last) eqn:E; [|eauto].
    exfalso. unfold Py.dt_leb, Py.dt_compare, Py.dt_fields in E. simpl in E.
    destruct (Z.compare_spec (Py.ordinal cur) (Py.ordinal last));
      first [lia | discriminate E].
  - destruct (Py.dt_leb cur last) eqn:E; [|eauto].
    assert (Hle : Py.ordinal cur <= Py.ordinal last).
    { unfold Py.dt_leb, Py.dt_compare, Py.dt_fields in E. simpl in E.
      destruct (Z.compare_spec (Py.ordinal cur) (Py.ordinal last));
        first [lia | discriminate E]. }
    assert (En : Py.add_days cur 1
                 = Some (Py.mk_datetime (Py.ordinal cur + 1) (Py.hour cur)
                           (Py.minute cur) (Py.second cur) (Py.microsecond cur))).
    { unfold Py.add_days.
      assert (E1 : (0 <? Py.ordinal cur + 1) = true) by (apply Z.ltb_lt; lia).
      assert (E2 : (Py.ordinal cur + 1 <=? Py._MAXORDINAL) = true)
        by (apply Z.leb_le; lia).
      now rewrite E1, E2. }
    destruct (Py.weekday cur <? 5); rewrite En; apply IH; simpl; lia.
Qed.

(** One Monday of hourly steps: the bars of 09:30 to 15:30. *)
Example intraday_day :
  hist_dates 10 true (Some 60) (Py.midnight 2024 1 1) (Py.midnight 2024 1 1) []
  = Val (map (fun h => Py.mk_datetime (Py.ymd2ord 2024 1 1) h 30 0 0)
             [9; 10; 11; 12; 13; 14; 15]).
Proof. reflexivity. Qed.

(** A step of zero minutes never leaves the loop of a trading day. *)
Lemma session_bars_zero_step (fuel : nat) (dates : list Py.datetime) :
  session_bars fuel (Some 0) (Py.midnight 2024 1 1) (9 * 60 + 30) dates = OutOfFuel.
Proof.
  revert dates. induction fuel as [|fuel IH]; intros dates; [reflexivity|].
  cbn [session_bars]. change (9 * 60 + 30 + 0) with (9 * 60 + 30).
  change (9 * 60 + 30 <? 16 * 60) with true. cbv iota.
  change (Py.replace (Py.midnight 2024 1 1) ((9 * 60 + 30) / 60) ((9 * 60 + 30) mod 60) 0 0)
    with (Some (Py.mk_datetime (Py.ymd2ord 2024 1 1) 9 30 0 0)).
  cbv iota. apply IH.
Qed.

(** From inside the table the cursor walks to its end and then hands over
    to the live poller: from row 0 of the three-day table, two calls move
    to rows 1 and 2, the third moves past the table and, on a Saturday,
    reports that no live bar is there yet. *)
Example next_inside_table :
  let (rs, s') := advance_all [saturday_noon; saturday_noon; saturday_noon; saturday_noon]
                              (set_idx 0 three_day_feed) in
  rs = [Val true; Val true; Val false; Val false] /\ _idx s' = Some 3.
Proof. vm_compute. split; reflexivity. Qed.

(** ** More on the order of datetimes *)

Lemma lex_compare_refl (a : list Z) : Py.lex_compare a a = Eq.
Proof. induction a as [|x a IH]; simpl; [reflexivity|]. now rewrite Z.compare_refl. Qed.

Lemma lex_compare_eq (a : list Z) : forall b, Py.lex_compare a b = Eq -> a = b.
Proof.
  induction a as [|x a IH]; intros [|y b]; simpl; try discriminate; [reflexivity|].
  destruct (Z.compare_spec x y) as [Hxy|Hxy|Hxy]; try discriminate.
  intros Hr. subst. f_equal. now apply IH.
Qed.

Lemma lex_compare_lt_trans (a : list Z) :
  forall b c, Py.lex_compare a b = Lt -> Py.lex_compare b c = Lt ->
  Py.lex_compare a c = Lt.
Proof.
  induction a as [|x a IH]; intros [|y b] [|z c]; simpl; try discriminate; auto.
  destruct (Z.compare_spec x y) as [Hxy|Hxy|Hxy],
           (Z.compare_spec y z) as [Hyz|Hyz|Hyz];
    try discriminate; intros H1 H2.
  - subst. rewrite Z.compare_refl. eapply IH; eauto.
  - subst. apply Z.compare_lt_iff in Hyz. now rewrite Hyz.
  - subst. apply Z.compare_lt_iff in Hxy. now rewrite Hxy.
  - assert (Hxz : x < z) by lia. apply Z.compare_lt_iff in Hxz. now rewrite Hxz.
Qed.

Lemma dt_leb_refl (a : Py.datetime) : Py.dt_leb a a = true.
Proof. unfold Py.dt_leb, Py.dt_compare. now rewrite lex_compare_refl. Qed.

Lemma dt_ltb_trans (a b c : Py.datetime) :
  Py.dt_ltb a b = true -> Py.dt_ltb b c = true -> Py.dt_ltb a c = true.
Proof.
  unfold Py.dt_ltb, Py.dt_compare. intros H1 H2.
  destruct (Py.lex_compare (Py.dt_fields a) (Py.dt_fields b)) eqn:E1; try discriminate.
  destruct (Py.lex_compare (Py.dt_fields b) (Py.dt_fields c)) eqn:E2; try discriminate.
  now rewrite (lex_compare_lt_trans _ _ _ E1 E2).
Qed.

Lemma dt_leb_ltb_trans (a b c : Py.datetime) :
  Py.dt_leb a b = true -> Py.dt_ltb b c = true -> Py.dt_ltb a c = true.
Proof.
  unfold Py.dt_leb, Py.dt_ltb, Py.dt_compare. intros H1 H2.
  destruct (Py.lex_compare (Py.dt_fields b) (Py.dt_fields c)) eqn:E2; try discriminate.
  destruct (Py.lex_compare (Py.dt_fields a) (Py.dt_fields b)) eqn:E1; try discriminate.
  - apply lex_compare_eq in E1. rewrite E1. now rewrite E2.
  - now rewrite (lex_compare_lt_trans _ _ _ E1 E2).
Qed.

Lemma dt_ltb_leb (a b : Py.datetime) : Py.dt_ltb a b = true -> Py.dt_leb a b = true.
Proof.
  unfold Py.dt_leb, Py.dt_ltb.
  destruct (Py.dt_compare a b); congruence.
Qed.

(** ** What a poll that emits a bar went through *)

Lemma fetch_live_bar_emits (e : Env) (s s' : TradeLockerFeed) (b : Bar) :
  _fetch_live_bar e s = (Val (Some b), s') ->
  is_trading_hours e s = (Val true, s)
  /\ Py.weekday (now e) < 5
  /\ bar_time e s = (Val (datetime b), s)
  /\ b = live_bar e (datetime b) (last_bar s)
  /\ s' = set_last_bar_time (Some (datetime b)) (set_last_bar (Some b) s)
  /\ match last_bar_time s with
     | Some t => Py.dt_ltb t (datetime b) = true
     | None => True
     end.
Proof.
  unfold _fetch_live_bar, bind.
  destruct (is_trading_hours_reads e s) as [[trading ->]|[x ->]]; [|discriminate].
  destruct trading; simpl; [|unfold ret; discriminate].
  destruct (Py.weekday (now e) <? 5) eqn:Ew; simpl; [|unfold ret; discriminate].
  apply Z.ltb_lt in Ew.
  destruct (bar_time_reads e s) as [[bt ->]|[x ->]]; [|discriminate].
  unfold gets, modify, ret.
  assert (Hd : datetime (live_bar e bt (last_bar s)) = bt)
    by (destruct (last_bar s); reflexivity).
  destruct (last_bar_time s) as [t|] eqn:Et.
  - destruct (Py.dt_leb bt t) eqn:El; [discriminate|].
    intros [= <- <-]. rewrite Hd.
    repeat split; auto. now apply dt_leb_false_ltb.
  - intros [= <- <-]. rewrite Hd. repeat split; auto.
Qed.

Lemma bar_time_fields (e : Env) (s : TradeLockerFeed) (bt : Py.datetime) :
  bar_time e s = (Val bt, s) ->
  Py.ordinal bt = Py.ordinal (now e) /\ Py.second bt = 0 /\ Py.microsecond bt = 0
  /\ 0 <= Py.minute bt < 60
  /\ if intraday s then
       exists k, minutes_timeframe s = (Val k, s) /\ k <> 0
                 /\ minute_of_day bt = minute_of_day (now e) / k * k
     else minute_of_day bt = 0.
Proof.
  unfold bar_time, bind, gets.
  destruct (intraday s).
  - destruct (minutes_timeframe_reads s) as [[k Hk]|[x Hx]]; [rewrite Hk | rewrite Hx; discriminate].
    destruct (k =? 0) eqn:Ek; [unfold raise; discriminate|].
    apply Z.eqb_neq in Ek.
    destruct (Py.replace (now e) _ _ 0 0) as [bt'|] eqn:Er; [|unfold or_raise, raise; discriminate].
    unfold or_raise, ret. intros [= <-].
    destruct (replace_fields _ _ _ _ _ _ Er) as (Ho & Hh & Hm & Hr).
    unfold Py.replace in Er.
    destruct (_ && _) in Er; [|discriminate]. injection Er as <-. simpl in *.
    repeat split; try lia.
    exists k. repeat split; auto.
    unfold minute_of_day. simpl.
    pose proof (Z.div_mod ((Py.hour (now e) * 60 + Py.minute (now e)) / k * k) 60).
    lia.
  - unfold or_raise, Py.replace. simpl. unfold ret. intros [= <-]. simpl.
    unfold minute_of_day. simpl. repeat split; lia.
Qed.

(** ** Bars made by the live poller *)

Lemma qmax_ge (a b : Q) : (a <= qmax a b)%Q /\ (b <= qmax a b)%Q.
Proof.
  unfold qmax. destruct (Qle_bool a b) eqn:E.
  - apply Qle_bool_iff in E. split; lra.
  - assert (~ (a <= b)%Q) by (rewrite <- Qle_bool_iff; congruence). split; lra.
Qed.

Lemma qmin_le (a b : Q) : (qmin a b <= a)%Q /\ (qmin a b <= b)%Q.
Proof.
  unfold qmin. destruct (Qle_bool a b) eqn:E.
  - apply Qle_bool_iff in E. split; lra.
  - assert (~ (a <= b)%Q) by (rewrite <- Qle_bool_iff; congruence). split; lra.
Qed.

(** X7. Every bar the live poller emits is a consistent candle: its high is
    not below the larger of open and close, its low not above the smaller,
    and so its low is not above its high. *)
Theorem live_bar_is_consistent (e : Env) (s s' : TradeLockerFeed) (b : Bar) :
  _fetch_live_bar e s = (Val (Some b), s') ->
  (qmax (open b) (close b) <= high b)%Q
  /\ (low b <= qmin (open b) (close b))%Q
  /\ (low b <= high b)%Q.
Proof.
  intros H. destruct (fetch_live_bar_emits e s s' b H) as (_ & _ & _ & Hb & _).
  rewrite Hb. unfold live_bar.
  destruct (last_bar s) as [lb|]; cbn [open close high low].
  - set (c := (close lb * (1 + (1 # 1000) * ((1 # 2) - qmod (time_time e) 2)))%Q).
    pose proof (qmax_ge (close lb) c) as [H1 H2].
    pose proof (qmin_le (close lb) c) as [H3 H4].
    repeat split; lra.
  - repeat split; discriminate.
Qed.

Lemma live_bar_is_consistent_witness :
  (qmax (open noon_bar) (close noon_bar) <= high noon_bar)%Q
  /\ (low noon_bar <= qmin (open noon_bar) (close noon_bar))%Q
  /\ (low noon_bar <= high noon_bar)%Q.
Proof.
  apply (live_bar_is_consistent thursday_12_07 quarter_hour_feed
           (after_bar noon_bar quarter_hour_feed) noon_bar).
  vm_compute. reflexivity.
Defined.

Lemma dt_leb_same_day (a b : Py.datetime) :
  Py.ordinal a = Py.ordinal b ->
  0 <= Py.minute a < 60 -> 0 <= Py.minute b < 60 ->
  minute_of_day a <= minute_of_day b ->
  Py.second a = 0 -> Py.microsecond a = 0 ->
  0 <= Py.second b -> 0 <= Py.microsecond b ->
  Py.dt_leb a b = true.
Proof.
  unfold minute_of_day. intros Ho Ha Hb Hle Hs Hu Hsb Hub.
  unfold Py.dt_leb, Py.dt_compare, Py.dt_fields. simpl.
  rewrite Ho, Z.compare_refl, Hs, Hu.
  destruct (Z.compare_spec (Py.hour a) (Py.hour b)); [|reflexivity|lia].
  destruct (Z.compare_spec (Py.minute a) (Py.minute b)); [|reflexivity|lia].
  destruct (Z.compare_spec 0 (Py.second b)); [|reflexivity|lia].
  destruct (Z.compare_spec 0 (Py.microsecond b)); [reflexivity|reflexivity|lia].
Qed.

(** X8. A bar emitted by the live poller carries the date of the clock, with
    seconds and microseconds zero, and (for a daily timeframe, or an
    intraday timeframe of a positive number of minutes) is not stamped
    later than the clock: midnight for a daily timeframe, and for an
    intraday one the last multiple of the step at or before the clock. *)
Theorem live_bar_time_is_floored (e : Env) (s s' : TradeLockerFeed) (b : Bar) :
  valid_datetime (now e) ->
  _fetch_live_bar e s = (Val (Some b), s') ->
  (intraday s = false \/ exists k, minutes_timeframe s = (Val k, s) /\ 0 < k) ->
  Py.ordinal (datetime b) = Py.ordinal (now e)
  /\ Py.second (datetime b) = 0 /\ Py.microsecond (datetime b) = 0
  /\ Py.dt_leb (datetime b) (now e) = true
  /\ (intraday s = false -> minute_of_day (datetime b) = 0)
  /\ (forall k, intraday s = true -> minutes_timeframe s = (Val k, s) ->
      minute_of_day (datetime b) mod k = 0
      /\ 0 <= minute_of_day (now e) - minute_of_day (datetime b) < k).
Proof.
  intros (Hh & Hm & Hs & Hu) H Hk.
  destruct (fetch_live_bar_emits e s s' b H) as (_ & _ & Hbt & _).
  destruct (bar_time_fields e s (datetime b) Hbt) as (Ho & Hs0 & Hu0 & Hr & Hi).
  assert (Hnow : 0 <= minute_of_day (now e)) by (unfold minute_of_day; lia).
  destruct (intraday s) eqn:Ei.
  - destruct Hi as (k & Hmk & Hk0 & Hmod).
    destruct Hk as [Hk|(k' & Hmk' & Hpos)]; [discriminate|].
    assert (k' = k) by congruence. subst k'.
    pose proof (Z.div_mod (minute_of_day (now e)) k Hk0) as Hdm.
    pose proof (Z.mod_pos_bound (minute_of_day (now e)) k Hpos) as Hb.
    repeat split; auto; try discriminate.
    + apply dt_leb_same_day; auto; lia.
    + assert (k0 = k) by congruence. subst k0. rewrite Hmod. apply Z.mod_mul. lia.
    + lia.
    + assert (k0 = k) by congruence. lia.
  - repeat split; auto; try discriminate.
    apply dt_leb_same_day; auto; lia.
Qed.

Lemma live_bar_time_is_floored_witness :
  Py.ordinal (datetime noon_bar) = Py.ordinal (now thursday_12_07)
  /\ Py.second (datetime noon_bar) = 0 /\ Py.microsecond (datetime noon_bar) = 0
  /\ Py.dt_leb (datetime noon_bar) (now thursday_12_07) = true.
Proof.
  destruct (live_bar_time_is_floored thursday_12_07 quarter_hour_feed
              (after_bar noon_bar quarter_hour_feed) noon_bar)
    as (H1 & H2 & H3 & H4 & _).
  - unfold valid_datetime. simpl. lia.
  - vm_compute. reflexivity.
  - right. exists 15. split; [reflexivity | lia].
  - auto.
Defined.

(** X9. An intraday timeframe whose prefix is not a number makes a poll in
    trading hours raise [ValueError], and a prefix of zero makes it raise
    [ZeroDivisionError]; the feed is left as it was. *)
Theorem live_poll_bad_step (e : Env) (s : TradeLockerFeed) :
  intraday s = true ->
  is_trading_hours e s = (Val true, s) ->
  Py.weekday (now e) < 5 ->
  (Py.int (Py.but_last (Py.chars (timeframe (p s)))) = None ->
   _fetch_live_bar e s = (Exc (Py.ValueError msg_int), s))
  /\ (Py.int (Py.but_last (Py.chars (timeframe (p s)))) = Some 0 ->
      _fetch_live_bar e s = (Exc Py.ZeroDivisionError, s)).
Proof.
  intros Hi Ht Hw. apply Z.ltb_lt in Hw.
  split; intros Hk; unfold _fetch_live_bar, bind at 1; rewrite Ht, Hw; simpl;
    unfold bar_time, minutes_timeframe; run_m; rewrite Hi, Hk; reflexivity.
Qed.

Lemma live_poll_bad_step_witness :
  _fetch_live_bar thursday_noon zero_step_feed = (Exc Py.ZeroDivisionError, zero_step_feed).
Proof.
  apply (live_poll_bad_step thursday_noon zero_step_feed eq_refl eq_refl); [|reflexivity].
  vm_compute. reflexivity.
Defined.

Lemma is_trading_hours_no_raise (e e' : Env) (s s' : TradeLockerFeed) (t : bool) :
  p s' = p s -> is_trading_hours e s = (Val t, s) ->
  exists t', is_trading_hours e' s' = (Val t', s')
             /\ (now e' = now e -> t' = t).
Proof.
  intros Hp. unfold is_trading_hours. run_m. rewrite Hp.
  destruct (truthy _ && truthy _); [|intros [= <-]; eauto].
  destruct (Py.strptime_HM (Py.chars (str_of (sessionstart (p s))))); [|discriminate].
  destruct (Py.strptime_HM (Py.chars (str_of (sessionend (p s))))); [|discriminate].
  intros [= <-]. eexists. split; [reflexivity|]. now intros ->.
Qed.

Lemma bar_time_frame (e e' : Env) (s s' : TradeLockerFeed) (bt : Py.datetime) :
  p s' = p s -> intraday s' = intraday s -> now e' = now e ->
  bar_time e s = (Val bt, s) -> bar_time e' s' = (Val bt, s').
Proof.
  intros Hp Hi Hn. unfold bar_time, minutes_timeframe. run_m. rewrite Hi, Hn.
  destruct (intraday s); cbv beta.
  - rewrite Hp. destruct (Py.int _) as [k|]; [|discriminate].
    destruct (k =? 0); [discriminate|].
    destruct (Py.replace _ _ _ _ _); [|discriminate]. now intros [= <-].
  - destruct (Py.replace _ _ _ _ _); [|discriminate]. now intros [= <-].
Qed.

(** X10. Once a bar was emitted, a poll at the same reading of the clock, or
    at any reading whose bar would not be later than the emitted one,
    gives nothing and leaves the feed as it is. *)
Theorem live_poll_suppresses_duplicates (e e' : Env) (s s' : TradeLockerFeed)
    (b : Bar) :
  _fetch_live_bar e s = (Val (Some b), s') ->
  (now e' = now e
   \/ exists bt, bar_time e' s' = (Val bt, s')
                 /\ Py.dt_leb bt (datetime b) = true) ->
  _fetch_live_bar e' s' = (Val None, s').
Proof.
  intros H Hcase.
  destruct (fetch_live_bar_emits e s s' b H) as (Ht & _ & Hbt & _ & Hs' & _).
  assert (Hp : p s' = p s) by (rewrite Hs'; reflexivity).
  assert (Hi : intraday s' = intraday s) by (rewrite Hs'; reflexivity).
  assert (Hl : last_bar_time s' = Some (datetime b)) by (rewrite Hs'; reflexivity).
  assert (Hbar : exists bt, bar_time e' s' = (Val bt, s')
                            /\ Py.dt_leb bt (datetime b) = true).
  { destruct Hcase as [Hn|Hx]; [|exact Hx].
    exists (datetime b). split; [|apply dt_leb_refl].
    exact (bar_time_frame e e' s s' (datetime b) Hp Hi Hn Hbt). }
  destruct Hbar as (bt & Hb & Hle).
  destruct (is_trading_hours_no_raise e e' s s' true Hp Ht) as (t' & Ht' & _).
  unfold _fetch_live_bar, bind. rewrite Ht'.
  destruct (negb (t' && (Py.weekday (now e') <? 5))); [reflexivity|].
  rewrite Hb. unfold gets. rewrite Hl, Hle. reflexivity.
Qed.

Lemma live_poll_suppresses_duplicates_witness :
  _fetch_live_bar thursday_noon (after_bar thursday_bar three_day_feed)
  = (Val None, after_bar thursday_bar three_day_feed).
Proof.
  apply (live_poll_suppresses_duplicates thursday_noon thursday_noon three_day_feed
           (after_bar thursday_bar three_day_feed) thursday_bar).
  - vm_compute. reflexivity.
  - left. reflexivity.
Defined.

(** ** What the loader puts in the table *)

Lemma dt_leb_ordinal (a b : Py.datetime) :
  Py.dt_leb a b = true -> Py.ordinal a <= Py.ordinal b.
Proof.
  unfold Py.dt_leb, Py.dt_compare, Py.dt_fields. simpl.
  destruct (Z.compare_spec (Py.ordinal a) (Py.ordinal b)); first [lia | discriminate].
Qed.

Lemma session_bars_all (P : Py.datetime -> Prop) (step : option Z)
    (first last : Py.datetime) (fuel : nat) (day : Py.datetime) :
  intraday_bars_satisfy P step first last ->
  Py.ordinal first <= Py.ordinal day -> Py.dt_leb day last = true ->
  Py.weekday day < 5 ->
  forall minutes dates ds,
  570 <= minutes -> (forall k, step = Some k -> (minutes - 570) mod k = 0) ->
  session_bars fuel step day minutes dates = Val ds ->
  Forall P dates -> Forall P ds.
Proof.
  intros HP Hf Hl Hw.
  induction fuel as [|fuel IH]; intros minutes dates ds Hm Hgrid; cbn [session_bars];
    destruct (minutes <? 16 * 60) eqn:E; try discriminate; try (now intros [= <-]).
  apply Z.ltb_lt in E.
  destruct (Py.replace day (minutes / 60) (minutes mod 60) 0 0) as [bt|] eqn:Er;
    [|discriminate].
  destruct step as [k|] eqn:Es; [|discriminate].
  intros Hrun Hall.
  assert (Hk : 0 < k).
  { destruct (Z.lt_ge_cases 0 k) as [|Hle]; [assumption|]. exfalso.
    apply (session_bars_needs_progress fuel k day Hle (minutes + k)
             (dates ++ [bt]) ds); [lia | exact Hrun]. }
  apply (IH (minutes + k) (dates ++ [bt]) ds); [lia| |exact Hrun|].
  - intros k' [= <-].
    replace (minutes + k - 570) with (minutes - 570 + 1 * k) by lia.
    rewrite Z_mod_plus_full. now apply Hgrid.
  - apply Forall_app. split; [exact Hall|]. constructor; [|constructor].
    apply (HP day minutes bt); auto; lia.
Qed.

Lemma hist_dates_all (P : Py.datetime -> Prop) (intr : bool) (step : option Z)
    (first last : Py.datetime) (fuel : nat) :
  (intr = true -> intraday_bars_satisfy P step first last) ->
  (intr = false -> daily_bars_satisfy P first last) ->
  forall cur dates ds,
  Py.ordinal first <= Py.ordinal cur ->
  hist_dates fuel intr step cur last dates = Val ds ->
  Forall P dates -> Forall P ds.
Proof.
  intros HPi HPd.
  induction fuel as [|fuel IH]; intros cur dates ds Hf; cbn [hist_dates];
    destruct (Py.dt_leb cur last) eqn:El; try discriminate; try (now intros [= <-]).
  intros Hrun Hall.
  assert (Hday : forall dates',
             Forall P dates' ->
             match Py.add_days cur 1 with
             | Some next_date => hist_dates fuel intr step next_date last dates'
             | None => Exc Py.OverflowError
             end = Val ds -> Forall P ds).
  { intros dates' Hall' Hrun'.
    destruct (Py.add_days cur 1) as [next_date|] eqn:En; [|discriminate].
    apply (IH next_date dates' ds); auto.
    rewrite (add_days_ordinal _ _ _ En). lia. }
  destruct intr eqn:Ei, (Py.weekday cur <? 5) eqn:Ew.
  - destruct (session_bars (S fuel) step cur (9 * 60 + 30) dates)
      as [dates'| |] eqn:Es; try discriminate.
    apply (Hday dates'); [|exact Hrun].
    apply Z.ltb_lt in Ew.
    apply (session_bars_all P step first last (S fuel) cur (HPi eq_refl) Hf El Ew
             (9 * 60 + 30) dates dates'); auto; try lia;
      try (intros k _; reflexivity).
  - now apply (Hday dates).
  - apply (Hday (dates ++ [cur])); [|exact Hrun].
    apply Forall_app. split; [exact Hall|]. constructor; [|constructor].
    apply Z.ltb_lt in Ew. now apply (HPd eq_refl).
  - now apply (Hday dates).
Qed.

Lemma loader_table (fuel : nat) (now_start now_end : Py.datetime) (rnd : Draws)
    (s s' : TradeLockerFeed) :
  _load_historical_data fuel now_start now_end rnd s = (Val tt, s') ->
  exists first dates,
    start_date (p s) now_start = Some first
    /\ hist_dates fuel (intraday s)
         (Py.int (Py.but_last (Py.chars (timeframe (p s)))))
         first (end_date (p s) now_end) [] = Val dates
    /\ hist_data s' = Some (hist_rows rnd 0 dates)
    /\ hist_loaded s' = true
    /\ last_bar_time s'
       = match dates with
         | [] => last_bar_time s
         | d :: _ => Some (last dates d)
         end
    /\ p s' = p s /\ intraday s' = intraday s /\ _idx s' = _idx s
    /\ live_buffer s' = live_buffer s /\ last_bar s' = last_bar s.
Proof.
  unfold _load_historical_data. run_m.
  destruct (start_date (p s) now_start) as [first|]; [|discriminate].
  destruct (hist_dates fuel (intraday s) _ first (end_date (p s) now_end) [])
    as [dates| |] eqn:E; try discriminate.
  destruct dates as [|d r]; intros [= <-]; exists first; eexists;
    (split; [reflexivity|]); (split; [exact E|]); repeat split.
Qed.

Lemma Forall_hist_rows (P : Py.datetime -> Prop) (rnd : Draws) (dates : list Py.datetime) :
  Forall P dates -> forall i, Forall (fun b => P (datetime b)) (hist_rows rnd i dates).
Proof.
  induction 1 as [|d dates Hd Hall IH]; intros i; simpl; constructor; auto.
Qed.

(** X2. Every row the loader stores is dated on a Monday to Friday, on a day
    of the requested range. *)
Theorem loader_rows_on_business_days (fuel : nat) (now_start now_end : Py.datetime)
    (rnd : Draws) (s s' : TradeLockerFeed) (first : Py.datetime) :
  start_date (p s) now_start = Some first ->
  _load_historical_data fuel now_start now_end rnd s = (Val tt, s') ->
  exists rows,
    hist_data s' = Some rows
    /\ Forall (fun b => Py.weekday (datetime b) < 5
                        /\ Py.ordinal first <= Py.ordinal (datetime b)
                           <= Py.ordinal (end_date (p s) now_end)) rows.
Proof.
  intros Hf H.
  destruct (loader_table _ _ _ _ _ _ H) as (first' & dates & Hf' & Hd & Hh & _).
  assert (first' = first) by congruence. subst first'.
  exists (hist_rows rnd 0 dates). split; [exact Hh|].
  apply (Forall_hist_rows
           (fun d => Py.weekday d < 5
                     /\ Py.ordinal first <= Py.ordinal d
                        <= Py.ordinal (end_date (p s) now_end))).
  eapply (hist_dates_all _ (intraday s) _ first (end_date (p s) now_end) fuel)
    with (cur := first) (dates := []); [| |lia|exact Hd|constructor].
  - intros _ day m bt Ho Hl Hw _ _ Hr.
    destruct (replace_fields _ _ _ _ _ _ Hr) as (Hob & _).
    apply dt_leb_ordinal in Hl. unfold Py.weekday in *. rewrite Hob. lia.
  - intros _ day Ho Hl Hw. apply dt_leb_ordinal in Hl. lia.
Qed.

Lemma loader_rows_on_business_days_witness :
  exists rows,
    hist_data three_day_feed = Some rows
    /\ Forall (fun b => Py.weekday (datetime b) < 5
                        /\ Py.ordinal (Py.midnight 2024 1 1) <= Py.ordinal (datetime b)
                           <= Py.ordinal (Py.midnight 2024 1 3)) rows.
Proof.
  apply (loader_rows_on_business_days 10 (Py.midnight 2024 1 10) (Py.midnight 2024 1 10)
           flat_draws three_day_unloaded three_day_feed (Py.midnight 2024 1 1) eq_refl).
  vm_compute. reflexivity.
Defined.

(** X3. For an intraday timeframe every stored row lies in the session from
    09:30 (included) to 16:00 (excluded), on a whole minute, a multiple of
    the step after 09:30. *)
Theorem loader_intraday_rows_in_session (fuel : nat)
    (now_start now_end : Py.datetime) (rnd : Draws) (s s' : TradeLockerFeed) :
  intraday s = true ->
  _load_historical_data fuel now_start now_end rnd s = (Val tt, s') ->
  exists rows,
    hist_data s' = Some rows
    /\ Forall (fun b =>
                 570 <= minute_of_day (datetime b) < 960
                 /\ Py.second (datetime b) = 0 /\ Py.microsecond (datetime b) = 0
                 /\ forall k, minutes_timeframe s = (Val k, s) ->
                              (minute_of_day (datetime b) - 570) mod k = 0) rows.
Proof.
  intros Hi H.
  destruct (loader_table _ _ _ _ _ _ H) as (first & dates & Hf & Hd & Hh & _).
  exists (hist_rows rnd 0 dates). split; [exact Hh|].
  apply (Forall_hist_rows
           (fun d => 570 <= minute_of_day d < 960
                     /\ Py.second d = 0 /\ Py.microsecond d = 0
                     /\ forall k, minutes_timeframe s = (Val k, s) ->
                                  (minute_of_day d - 570) mod k = 0)).
  rewrite Hi in Hd.
  eapply (hist_dates_all _ true _ first (end_date (p s) now_end) fuel)
    with (cur := first) (dates := []); [| |lia|exact Hd|constructor].
  - intros _ day m bt Ho Hl Hw Hm Hgrid Hr.
    destruct (replace_fields _ _ _ _ _ _ Hr) as (Hob & Hh' & Hm' & Hrange).
    assert (Hmd : minute_of_day bt = m).
    { unfold minute_of_day. rewrite Hh', Hm'. pose proof (Z.div_mod m 60). lia. }
    unfold Py.replace in Hr. destruct (_ && _) in Hr; [|discriminate].
    injection Hr as <-. simpl. rewrite Hmd. repeat split; try lia.
    intros k Hk. apply Hgrid.
    unfold minutes_timeframe in Hk. run_m.
    destruct (Py.int _); [congruence | discriminate].
  - discriminate.
Qed.

Lemma loader_intraday_rows_in_session_witness :
  exists s' rows,
    _load_historical_data 10 (Py.midnight 2024 1 10) (Py.midnight 2024 1 10)
      flat_draws hourly_feed = (Val tt, s')
    /\ hist_data s' = Some rows /\ List.length rows = 7%nat
    /\ Forall (fun b => 570 <= minute_of_day (datetime b) < 960) rows.
Proof.
  destruct (_load_historical_data 10 (Py.midnight 2024 1 10) (Py.midnight 2024 1 10)
              flat_draws hourly_feed) as [r s'] eqn:E.
  assert (Hr : r = Val tt) by (vm_compute in E; congruence). subst r.
  destruct (loader_intraday_rows_in_session 10 _ _ flat_draws hourly_feed s' eq_refl E)
    as (rows & Hh & Hall).
  exists s', rows. split; [reflexivity|]. split; [exact Hh|]. split.
  - vm_compute in E. injection E as <-. simpl in Hh. injection Hh as <-. reflexivity.
  - eapply Forall_impl; [|exact Hall]. intros b Hb. apply Hb.
Defined.


(** ** When the loader returns *)

Lemma replace_in_session (day : Py.datetime) (minutes : Z) :
  570 <= minutes < 960 ->
  exists bt, Py.replace day (minutes / 60) (minutes mod 60) 0 0 = Some bt.
Proof.
  intros Hm. unfold Py.replace.
  pose proof (Z.div_mod minutes 60).
  pose proof (Z.mod_pos_bound minutes 60).
  assert (E : (0 <=? minutes / 60) && (minutes / 60 <=? 23)
              && (0 <=? minutes mod 60) && (minutes mod 60 <=? 59) = true).
  { repeat (apply andb_true_iff; split); apply Z.leb_le; lia. }
  rewrite E. simpl. eauto.
Qed.

Lemma session_bars_returns (k : Z) (day : Py.datetime) :
  0 < k -> forall fuel minutes dates,
  570 <= minutes -> 960 - minutes <= Z.of_nat fuel ->
  exists ds, session_bars fuel (Some k) day minutes dates = Val ds.
Proof.
  intros Hk. induction fuel as [|fuel IH]; intros minutes dates Hm Hfuel;
    cbn [session_bars]; destruct (minutes <? 16 * 60) eqn:E; eauto;
    apply Z.ltb_lt in E; [lia|].
  destruct (replace_in_session day minutes) as [bt ->]; [lia|].
  apply IH; lia.
Qed.

Lemma hist_dates_returns (intr : bool) (step : option Z) (last : Py.datetime) :
  (intr = false \/ exists k, step = Some k /\ 0 < k) ->
  Py.ordinal last < Py._MAXORDINAL ->
  forall fuel cur dates,
  0 < Py.ordinal cur ->
  Py.ordinal last - Py.ordinal cur + 390 < Z.of_nat fuel ->
  exists ds, hist_dates fuel intr step cur last dates = Val ds.
Proof.
  intros Hstep Hmax. induction fuel as [|fuel IH]; intros cur dates Hpos Hfuel;
    cbn [hist_dates]; destruct (Py.dt_leb cur last) eqn:E; eauto;
    apply dt_leb_ordinal in E; [lia|].
  assert (En : exists next_date, Py.add_days cur 1 = Some next_date
                                 /\ Py.ordinal next_date = Py.ordinal cur + 1).
  { unfold Py.add_days.
    assert (E1 : (0 <? Py.ordinal cur + 1) = true) by (apply Z.ltb_lt; lia).
    assert (E2 : (Py.ordinal cur + 1 <=? Py._MAXORDINAL) = true)
      by (apply Z.leb_le; lia).
    rewrite E1, E2. simpl. eauto. }
  destruct En as (next_date & En & Hn).
  destruct intr, (Py.weekday cur <? 5); rewrite ?En; try (apply IH; lia).
  destruct Hstep as [Hf|(k & -> & Hk)]; [discriminate|].
  destruct (session_bars_returns k cur Hk (S fuel) (9 * 60 + 30) dates) as [ds ->];
    [lia|lia|].
  apply IH; lia.
Qed.

(** X4. For a daily timeframe, or an intraday one whose step is a positive
    number of minutes, the loader returns with a table as soon as it is
    given one iteration per day of the range and 390 to spare (the minutes
    of a session); it raises nothing. *)
Theorem loader_returns (fuel : nat) (now_start now_end : Py.datetime) (rnd : Draws)
    (s : TradeLockerFeed) (first : Py.datetime) :
  start_date (p s) now_start = Some first ->
  0 < Py.ordinal first ->
  Py.ordinal (end_date (p s) now_end) < Py._MAXORDINAL ->
  (intraday s = false \/ exists k, minutes_timeframe s = (Val k, s) /\ 0 < k) ->
  Py.ordinal (end_date (p s) now_end) - Py.ordinal first + 390 < Z.of_nat fuel ->
  exists s' rows,
    _load_historical_data fuel now_start now_end rnd s = (Val tt, s')
    /\ hist_data s' = Some rows /\ hist_loaded s' = true.
Proof.
  intros Hf Hpos Hmax Hstep Hfuel.
  assert (Hstep' : intraday s = false
                   \/ exists k, Py.int (Py.but_last (Py.chars (timeframe (p s)))) = Some k
                                /\ 0 < k).
  { destruct Hstep as [Hd|(k & Hk & Hpk)]; [now left | right].
    exists k. split; [|exact Hpk].
    unfold minutes_timeframe in Hk. run_m.
    destruct (Py.int _); [congruence | discriminate]. }
  destruct (hist_dates_returns (intraday s) _ (end_date (p s) now_end) Hstep' Hmax
              fuel first [] Hpos Hfuel) as [dates Hd].
  unfold _load_historical_data. run_m. rewrite Hf, Hd.
  destruct dates; eexists; eexists; repeat split.
Qed.

Lemma loader_returns_witness :
  exists s' rows,
    _load_historical_data 400 (Py.midnight 2024 1 10) (Py.midnight 2024 1 10)
      flat_draws hourly_feed = (Val tt, s')
    /\ hist_data s' = Some rows /\ hist_loaded s' = true.
Proof.
  apply (loader_returns 400 (Py.midnight 2024 1 10) (Py.midnight 2024 1 10)
           flat_draws hourly_feed (Py.midnight 2024 1 1) eq_refl).
  - vm_compute. reflexivity.
  - vm_compute. reflexivity.
  - right. exists 60. split; [reflexivity | lia].
  - vm_compute. reflexivity.
Defined.

Lemma session_bars_zero (day : Py.datetime) (fuel : nat) :
  forall dates, session_bars fuel (Some 0) day (9 * 60 + 30) dates = OutOfFuel.
Proof.
  induction fuel as [|fuel IH]; intros dates; [reflexivity|].
  cbn [session_bars].
  change (9 * 60 + 30 <? 16 * 60) with true. cbv iota.
  destruct (replace_in_session day (9 * 60 + 30)) as [bt ->]; [lia|].
  change (9 * 60 + 30 + 0) with (9 * 60 + 30). apply IH.
Qed.

(** X5. An intraday timeframe whose step is zero or negative never lets the
    loader return once the range begins on a business day: whatever the
    iteration budget it is still looping or has raised, and with a step of
    zero it loops for ever. A prefix that is not a number raises
    [ValueError]. The feed is left as it was. *)
Theorem loader_bad_step (now_start now_end : Py.datetime) (rnd : Draws)
    (s : TradeLockerFeed) (first : Py.datetime) :
  intraday s = true ->
  start_date (p s) now_start = Some first ->
  Py.weekday first < 5 ->
  Py.dt_leb first (end_date (p s) now_end) = true ->
  let step := Py.int (Py.but_last (Py.chars (timeframe (p s)))) in
  (forall k, step = Some k -> k <= 0 ->
     forall fuel,
       snd (_load_historical_data fuel now_start now_end rnd s) = s
       /\ (forall u, fst (_load_historical_data fuel now_start now_end rnd s) <> Val u)
       /\ (k = 0 -> _load_historical_data fuel now_start now_end rnd s = (OutOfFuel, s)))
  /\ (step = None ->
      forall fuel,
        _load_historical_data (S fuel) now_start now_end rnd s
        = (Exc (Py.ValueError msg_int), s)).
Proof.
  intros Hi Hf Hw Hle step. apply Z.ltb_lt in Hw. split.
  - intros k Hk Hneg fuel.
    unfold _load_historical_data. run_m. fold step. rewrite Hf, Hi, Hk.
    destruct fuel as [|fuel]; cbn [hist_dates]; rewrite Hle;
      [repeat split; first [discriminate | reflexivity]|].
    rewrite Hw.
    destruct (session_bars (S fuel) (Some k) first (9 * 60 + 30) []) as [ds| |] eqn:Es.
    + exfalso.
      apply (session_bars_needs_progress (S fuel) k first Hneg (9 * 60 + 30) [] ds);
        [lia | exact Es].
    + repeat split; try discriminate. intros ->.
      rewrite session_bars_zero in Es. discriminate Es.
    + repeat split; first [discriminate | reflexivity].
  - intros Hk fuel.
    unfold _load_historical_data. run_m. fold step. rewrite Hf, Hi, Hk.
    cbn [hist_dates]. rewrite Hle, Hw. cbn [session_bars].
    change (9 * 60 + 30 <? 16 * 60) with true. cbv iota.
    destruct (replace_in_session first (9 * 60 + 30)) as [bt ->]; [lia|].
    reflexivity.
Qed.

Lemma loader_bad_step_witness :
  _load_historical_data 1000%nat (Py.midnight 2024 1 10) (Py.midnight 2024 1 10)
    flat_draws zero_step_unloaded = (OutOfFuel, zero_step_unloaded).
Proof.
  apply (proj1 (loader_bad_step (Py.midnight 2024 1 10) (Py.midnight 2024 1 10)
                  flat_draws zero_step_unloaded (Py.midnight 2024 1 1)
                  eq_refl eq_refl eq_refl eq_refl) 0 eq_refl ltac:(lia) 1000%nat).
  reflexivity.
Defined.

(** ** The table and the live bars after it *)

Lemma increasing_last (ds : list Py.datetime) :
  increasing ds -> forall d0 d, In d ds -> Py.dt_leb d (last ds d0) = true.
Proof.
  unfold increasing. induction 1 as [|x ds Hs IH Hx]; intros d0 d Hin; [destruct Hin|].
  destruct ds as [|y ds].
  - destruct Hin as [<-|[]]. apply dt_leb_refl.
  - change (last (x :: y :: ds) d0) with (last (y :: ds) d0).
    destruct Hin as [<-|Hin]; [|now apply IH].
    apply dt_ltb_leb. rewrite Forall_forall in Hx. apply Hx.
    clear. revert y. induction ds as [|z ds IHd]; intros y; [now left|].
    right. apply IHd.
Qed.

(** ** The cursor inside the table *)

Lemma set_idx_same (s : TradeLockerFeed) (i : Z) :
  _idx s = Some i -> set_idx i s = s.
Proof. destruct s; simpl. now intros ->. Qed.

Lemma set_idx_set_idx (s : TradeLockerFeed) (i j : Z) :
  set_idx j (set_idx i s) = set_idx j s.
Proof. reflexivity. Qed.

Lemma next_in_table (e : Env) (s : TradeLockerFeed) (rows : list Bar) (i : Z) :
  hist_data s = Some rows -> _idx s = Some i ->
  0 <= i -> i + 1 < Z.of_nat (List.length rows) ->
  next e s = (Val true, set_idx (i + 1) s).
Proof.
  intros Hh Hi H0 Hlt. unfold next, _next_historical, get_idx, len_hist_data. run_m.
  rewrite Hi.
  assert (E0 : (0 <=? i) = true) by (apply Z.leb_le; lia).
  assert (E1 : (i <? Z.of_nat (List.length rows) - 1) = true) by (apply Z.ltb_lt; lia).
  rewrite E0. cbv beta. rewrite Hh, E1. cbv iota beta. simpl. rewrite Hi, Hh.
  reflexivity.
Qed.

(** X11. From a row of the table, each call to [next] that still has a row
    after it returns true and moves the cursor one row on, whatever the
    clock; nothing else of the feed changes and the live poller is not
    consulted. *)
Theorem next_walks_table (es : list Env) (s : TradeLockerFeed) (rows : list Bar)
    (i : Z) :
  hist_data s = Some rows -> _idx s = Some i -> 0 <= i ->
  i + Z.of_nat (List.length es) < Z.of_nat (List.length rows) ->
  advance_all es s
  = (map (fun _ => Val true) es, set_idx (i + Z.of_nat (List.length es)) s).
Proof.
  revert s i. induction es as [|e es IH]; intros s i Hh Hi H0 Hlt.
  - simpl. rewrite Z.add_0_r. now rewrite set_idx_same.
  - cbn [advance_all]. cbn [List.length] in Hlt.
    rewrite (next_in_table e s rows i Hh Hi H0) by lia.
    rewrite (IH (set_idx (i + 1) s) (i + 1)); try reflexivity; try lia; [|exact Hh].
    simpl map. rewrite set_idx_set_idx. do 2 f_equal.
    cbn [List.length]. lia.
Qed.

Lemma next_walks_table_witness :
  advance_all [thursday_noon; saturday_noon] (set_idx 0 three_day_feed)
  = ([Val true; Val true], set_idx 2 three_day_feed).
Proof.
  apply (next_walks_table [thursday_noon; saturday_noon] (set_idx 0 three_day_feed)
           (hist_rows flat_draws 0
              [Py.midnight 2024 1 1; Py.midnight 2024 1 2; Py.midnight 2024 1 3])
           0 eq_refl eq_refl); simpl; lia.
Defined.

(** X12. On the last row of the table (or before an empty table) [next] moves
    the cursor past the table for good and answers with what the live
    poller finds; with [historical] off it first empties the live buffer
    and forgets the last-known timestamp. *)
Theorem next_leaves_table (e : Env) (s : TradeLockerFeed) (rows : list Bar) :
  hist_data s = Some rows ->
  _idx s = Some (Z.of_nat (List.length rows) - 1) ->
  let s1 := set_idx (Z.of_nat (List.length rows)) s in
  next e s
  = _next_live e (if historical (p s) then s1
                  else set_last_bar_time None (set_live_buffer [] s1))
  /\ in_live_range (snd (next e s)).
Proof.
  intros Hh Hi s1.
  assert (Hnext : next e s
                  = _next_live e (if historical (p s) then s1
                                  else set_last_bar_time None (set_live_buffer [] s1))).
  { unfold next, get_idx, len_hist_data. run_m. rewrite Hi.
    assert (E1 : (Z.of_nat (List.length rows) - 1 <? Z.of_nat (List.length rows) - 1) = false)
      by apply Z.ltb_irrefl.
    destruct (0 <=? Z.of_nat (List.length rows) - 1); cbv beta; rewrite Hh, ?E1;
      cbv iota beta; rewrite ?Hh, Z.eqb_refl; cbv iota beta;
      replace (Z.of_nat (List.length rows) - 1 + 1) with (Z.of_nat (List.length rows))
        by lia;
      fold s1; simpl; destruct (historical (p s)); reflexivity. }
  split; [exact Hnext|].
  rewrite Hnext. unfold _next_live.
  set (s2 := if historical (p s) then s1
             else set_last_bar_time None (set_live_buffer [] s1)).
  assert (Hlive : in_live_range s2).
  { exists rows, (Z.of_nat (List.length rows)).
    unfold s2. destruct (historical (p s)); simpl; repeat split; auto; lia. }
  exact (in_live_range_same_cursor s2 _ Hlive (load_next_live_bar_cursor e s2)).
Qed.

Lemma next_leaves_table_witness :
  in_live_range (snd (next saturday_noon empty_table_feed))
  /\ in_live_range (snd (next saturday_noon (set_idx 2 three_day_feed))).
Proof.
  split.
  - apply (next_leaves_table saturday_noon empty_table_feed [] eq_refl eq_refl).
  - apply (next_leaves_table saturday_noon (set_idx 2 three_day_feed)
             (hist_rows flat_draws 0
                [Py.midnight 2024 1 1; Py.midnight 2024 1 2; Py.midnight 2024 1 3])
             eq_refl eq_refl).
Defined.

(** X13. With a table that is not empty and the cursor at -1, where [start]
    puts it, no sequence of calls to [next] ever moves the cursor: each
    call answers with what the live poller finds, and the test of
    [_get_bar] for serving a row of the table stays false. *)
Theorem fresh_cursor_stays_before_table (es : list Env) (s : TradeLockerFeed)
    (rows : list Bar) :
  hist_data s = Some rows -> rows <> [] -> _idx s = Some (-1) ->
  let s' := snd (advance_all es s) in
  _idx s' = Some (-1) /\ hist_data s' = Some rows
  /\ idx_in_table s' = (Val false, s')
  /\ forall e, next e s' = _next_live e s'.
Proof.
  intros Hh Hne Hi s'.
  destruct (advance_all_before_table es s rows Hh Hne Hi) as [H1 H2].
  fold s' in H1, H2.
  assert (Hi' : _idx s' = Some (-1)) by congruence.
  assert (Hh' : hist_data s' = Some rows) by congruence.
  repeat split; auto.
  - unfold idx_in_table, get_idx. run_m. now rewrite Hi'.
  - intros e. now apply (next_before_table e s' rows).
Qed.

Lemma fresh_cursor_stays_before_table_witness :
  let s' := snd (advance_all [thursday_noon; saturday_noon; thursday_12_07] three_day_feed) in
  _idx s' = Some (-1) /\ idx_in_table s' = (Val false, s').
Proof.
  destruct (fresh_cursor_stays_before_table
              [thursday_noon; saturday_noon; thursday_12_07] three_day_feed
              (hist_rows flat_draws 0
                 [Py.midnight 2024 1 1; Py.midnight 2024 1 2; Py.midnight 2024 1 3])
              eq_refl ltac:(discriminate) eq_refl) as (H1 & _ & H3 & _).
  split; assumption.
Defined.

(** X14. A feed built with [historical] off is started without a table, and
    then every call to [next] raises [TypeError] and changes nothing. *)
Theorem next_without_table_raises (prm : Params) (s0 : TradeLockerFeed)
    (fuel : nat) (now_start now_end : Py.datetime) (rnd : Draws) (es : list Env) :
  __init__ prm = inr s0 -> historical prm = false ->
  exists s1,
    start fuel now_start now_end rnd s0 = (Val tt, s1)
    /\ hist_data s1 = None /\ _idx s1 = Some (-1)
    /\ advance_all es s1 = (map (fun _ => Exc Py.TypeError) es, s1).
Proof.
  unfold __init__. intros Hinit Hh.
  destruct (api prm) as [a|]; [|discriminate].
  destruct (symbol prm); [|discriminate].
  destruct (Py.last_char _); [|discriminate].
  injection Hinit as <-.
  unfold start, connect. run_m. simpl.
  destruct (is_connected a); simpl; rewrite Hh; eexists; (split; [reflexivity|]);
    (split; [reflexivity|]); (split; [reflexivity|]);
    induction es as [|e es IH]; simpl; try reflexivity;
    rewrite IH; reflexivity.
Qed.

Lemma next_without_table_raises_witness :
  exists s0 s1,
    __init__ (mk_params (Some "AAPL"%string) "1d" None None false (Some demo_api) None None)
    = inr s0
    /\ start 0 (Py.midnight 2024 1 10) (Py.midnight 2024 1 10) flat_draws s0 = (Val tt, s1)
    /\ advance_all [thursday_noon; thursday_noon] s1
       = ([Exc Py.TypeError; Exc Py.TypeError], s1).
Proof.
  eexists. 
  destruct (next_without_table_raises
              (mk_params (Some "AAPL"%string) "1d" None None false (Some demo_api) None None)
              _ 0 (Py.midnight 2024 1 10) (Py.midnight 2024 1 10) flat_draws
              [thursday_noon; thursday_noon] eq_refl eq_refl) as (s1 & H1 & _ & _ & H4).
  exists s1. repeat split; assumption.
Defined.

(** X15. While the cursor is on a row of the table, [_get_bar] returns that
    row and changes nothing, and [_load_bar] makes it the current bar: the
    live buffer is not touched and the poller is not consulted, so serving
    again without [next] in between serves the same row. *)
Theorem get_bar_serves_row (e : Env) (s : TradeLockerFeed) (rows : list Bar) (i : Z) :
  hist_data s = Some rows -> _idx s = Some i ->
  0 <= i < Z.of_nat (List.length rows) ->
  exists row,
    nth_error rows (Z.to_nat i) = Some row
    /\ _get_bar e s = (Val (Some row), s)
    /\ _load_bar e s = (Val true, set_lines row s)
    /\ forall e', _load_bar e' (set_lines row s) = (Val true, set_lines row s).
Proof.
  intros Hh Hi Hr.
  destruct (nth_error rows (Z.to_nat i)) as [row|] eqn:En.
  2:{ apply nth_error_None in En. lia. }
  exists row. split; [reflexivity|].
  assert (E0 : (0 <=? i) = true) by (apply Z.leb_le; lia).
  assert (E1 : (i <? Z.of_nat (List.length rows)) = true) by (apply Z.ltb_lt; lia).
  assert (Hget : forall e0 s0, hist_data s0 = Some rows -> _idx s0 = Some i ->
                               _get_bar e0 s0 = (Val (Some row), s0)).
  { intros e0 s0 Hh0 Hi0.
    unfold _get_bar, idx_in_table, get_idx, len_hist_data, iloc. run_m.
    rewrite Hi0, E0. cbv beta. rewrite Hh0, E1. cbv iota beta.
    rewrite Hi0. cbv iota beta. rewrite Hh0, En. reflexivity. }
  assert (Hload : forall e0 s0, hist_data s0 = Some rows -> _idx s0 = Some i ->
                                _load_bar e0 s0 = (Val true, set_lines row s0)).
  { intros e0 s0 Hh0 Hi0. unfold _load_bar, bind. rewrite (Hget e0 s0 Hh0 Hi0).
    reflexivity. }
  split; [now apply Hget|]. split; [now apply Hload|].
  intros e'. now rewrite (Hload e' (set_lines row s)).
Qed.

Lemma get_bar_serves_row_witness :
  exists row,
    nth_error (hist_rows flat_draws 0
                 [Py.midnight 2024 1 1; Py.midnight 2024 1 2; Py.midnight 2024 1 3]) 1
    = Some row
    /\ datetime row = Py.midnight 2024 1 2
    /\ _load_bar thursday_noon (set_idx 1 three_day_feed)
       = (Val true, set_lines row (set_idx 1 three_day_feed)).
Proof.
  destruct (get_bar_serves_row thursday_noon (set_idx 1 three_day_feed)
              (hist_rows flat_draws 0
                 [Py.midnight 2024 1 1; Py.midnight 2024 1 2; Py.midnight 2024 1 3])
              1 eq_refl eq_refl ltac:(simpl; lia)) as (row & H1 & _ & H3 & _).
  exists row. split; [exact H1|]. split; [|exact H3].
  simpl in H1. injection H1 as <-. reflexivity.
Defined.


(** ** Properties kept by every method *)

Lemma preserves_bind {A B} (I : TradeLockerFeed -> Prop) (m : M A) (k : A -> M B) :
  preserves I m -> (forall a, preserves I (k a)) -> preserves I (bind m k).
Proof.
  intros Hm Hk s Hs. unfold bind. specialize (Hm s Hs).
  destruct (m s) as [[a|x|] s1]; simpl in *; auto. now apply Hk.
Qed.

Lemma preserves_ret {A} (I : TradeLockerFeed -> Prop) (a : A) : preserves I (ret a).
Proof. intros s Hs. exact Hs. Qed.

Lemma preserves_raise {A} (I : TradeLockerFeed -> Prop) (x : Py.exn) :
  preserves I (@raise A x).
Proof. intros s Hs. exact Hs. Qed.

Lemma preserves_gets {A} (I : TradeLockerFeed -> Prop) (f : TradeLockerFeed -> A) :
  preserves I (gets f).
Proof. intros s Hs. exact Hs. Qed.

Lemma preserves_or_raise {A} (I : TradeLockerFeed -> Prop) (x : Py.exn) (o : option A) :
  preserves I (or_raise x o).
Proof. destruct o; intros s Hs; exact Hs. Qed.

Lemma preserves_modify (I : TradeLockerFeed -> Prop)
    (f : TradeLockerFeed -> TradeLockerFeed) :
  (forall s, I s -> I (f s)) -> preserves I (modify f).
Proof. intros Hf s Hs. now apply Hf. Qed.

Ltac pres_with known :=
  repeat first
    [ known
    | apply preserves_ret | apply preserves_raise | apply preserves_gets
    | apply preserves_or_raise
    | apply preserves_bind; [|intros ?]
    | match goal with
      | |- preserves _ (if ?c then _ else _) => destruct c
      | |- preserves _ (match ?x with _ => _ end) => destruct x
      end ].

(** ** The live buffer stays in order *)

Lemma buffer_ordered_poll (e : Env) :
  preserves buffer_ordered (_load_next_live_bar e).
Proof.
  intros s [Hinc Hbound]. unfold _load_next_live_bar, bind.
  destruct (_fetch_live_bar e s) as [[[b|]|x|] s1] eqn:E.
  - destruct (fetch_live_bar_emits e s s1 b E) as (_ & _ & _ & _ & -> & Hlt).
    unfold modify, ret. simpl.
    assert (Hall : Forall (fun x => Py.dt_ltb x (datetime b) = true)
                          (map datetime (live_buffer s))).
    { apply Forall_forall. intros d Hd. apply in_map_iff in Hd as (b0 & <- & Hb0).
      destruct (Hbound b0 Hb0) as (t & Ht & Hle). rewrite Ht in Hlt.
      exact (dt_leb_ltb_trans _ _ _ Hle Hlt). }
    split; simpl.
    + rewrite map_app. now apply increasing_snoc.
    + intros b0 Hb0. exists (datetime b). split; [reflexivity|].
      apply in_app_or in Hb0 as [Hb0|[<-|[]]]; [|apply dt_leb_refl].
      apply dt_ltb_leb. rewrite Forall_forall in Hall. apply Hall. now apply in_map.
  - destruct (fetch_live_bar_cases e s) as [[x Hx]|[Hn|(b & Hb & _)]];
      rewrite E in *; try discriminate.
    injection Hn as <-. now split.
  - destruct (fetch_live_bar_cases e s) as [[x' Hx]|[Hn|(b & Hb & _)]];
      rewrite E in *; try discriminate.
    injection Hx as _ <-. now split.
  - destruct (fetch_live_bar_cases e s) as [[x' Hx]|[Hn|(b & Hb & _)]];
      rewrite E in *; discriminate.
Qed.

Lemma buffer_ordered_set_idx (i : Z) (s : TradeLockerFeed) :
  buffer_ordered s -> buffer_ordered (set_idx i s).
Proof. intros H. exact H. Qed.

Lemma buffer_ordered_set_lines (b : Bar) (s : TradeLockerFeed) :
  buffer_ordered s -> buffer_ordered (set_lines b s).
Proof. intros H. exact H. Qed.

Lemma buffer_ordered_pop (s : TradeLockerFeed) (b : Bar) (rest : list Bar) :
  live_buffer s = b :: rest -> buffer_ordered s ->
  buffer_ordered (set_live_buffer rest s).
Proof.
  intros Hb [Hinc Hbound]. rewrite Hb in Hinc, Hbound. split; simpl.
  - simpl in Hinc. now inversion Hinc.
  - intros b0 Hb0. apply Hbound. now right.
Qed.

Lemma buffer_ordered_pop_front :
  preserves buffer_ordered
    (buf <- gets live_buffer ;;
     match buf with
     | b :: rest => modify (set_live_buffer rest) ;;; ret (Some b)
     | [] => ret None
     end).
Proof.
  intros s Hs. unfold bind, gets.
  destruct (live_buffer s) as [|b rest] eqn:Eb; [exact Hs|].
  unfold modify, ret. simpl. now apply (buffer_ordered_pop s b rest).
Qed.

Lemma buffer_ordered_reset :
  preserves buffer_ordered
    (modify (set_live_buffer []) ;;; modify (set_last_bar_time None)).
Proof. intros s Hs. split; simpl; [constructor | intros b []]. Qed.

Lemma buffer_ordered_set (f : TradeLockerFeed -> TradeLockerFeed) :
  (forall s, live_buffer (f s) = live_buffer s) ->
  (forall s, last_bar_time (f s) = last_bar_time s) ->
  preserves buffer_ordered (modify f).
Proof.
  intros Hb Ht s [H1 H2]. unfold modify, buffer_ordered. simpl.
  rewrite Hb, Ht. now split.
Qed.

Ltac buffer_known :=
  first [ apply buffer_ordered_poll | apply buffer_ordered_pop_front
        | apply buffer_ordered_reset
        | apply buffer_ordered_set; reflexivity ].

Lemma buffer_ordered_get_bar (e : Env) : preserves buffer_ordered (_get_bar e).
Proof.
  unfold _get_bar, idx_in_table, get_idx, len_hist_data, iloc.
  pres_with buffer_known.
Qed.

Lemma buffer_ordered_load_bar (e : Env) : preserves buffer_ordered (_load_bar e).
Proof.
  unfold _load_bar. pres_with ltac:(first [apply buffer_ordered_get_bar | buffer_known]).
Qed.

Lemma buffer_ordered_next (e : Env) : preserves buffer_ordered (next e).
Proof.
  unfold next, _next_historical, _next_live, get_idx, len_hist_data.
  pres_with buffer_known.
Qed.

(** X16. If the bars waiting in the live buffer are in strictly increasing
    order of timestamp and none is later than the last-known timestamp (as
    when the buffer is empty), this stays so through any sequence of calls
    to [next] and [_load_bar], also across calls that raise. *)
Theorem live_buffer_stays_ordered (cs : list Call) (s : TradeLockerFeed) :
  buffer_ordered s -> buffer_ordered (snd (call_all cs s)).
Proof.
  revert s. induction cs as [|c cs IH]; intros s Hs; [exact Hs|].
  cbn [call_all].
  assert (Hc : buffer_ordered (snd (call c s))).
  { destruct c; [now apply buffer_ordered_next | now apply buffer_ordered_load_bar]. }
  destruct (call c s) as [r s1]. simpl in Hc. specialize (IH s1 Hc).
  destruct (call_all cs s1) as [rs s2]. exact IH.
Qed.

Lemma live_buffer_stays_ordered_witness :
  buffer_ordered
    (snd (call_all [CallNext thursday_noon; CallNext thursday_12_07;
                    CallLoadBar saturday_noon] queued_feed)).
Proof.
  apply (live_buffer_stays_ordered
           [CallNext thursday_noon; CallNext thursday_12_07; CallLoadBar saturday_noon]
           queued_feed).
  split; simpl.
  - repeat constructor.
  - intros b [<-|[]]. eexists. split; reflexivity.
Defined.


(** ** Starting the feed *)

Lemma session_bars_exn (fuel : nat) (step : option Z) (day : Py.datetime) (x : Py.exn) :
  forall minutes dates,
  session_bars fuel step day minutes dates = Exc x -> exists msg, x = Py.ValueError msg.
Proof.
  induction fuel as [|fuel IH]; intros minutes dates; cbn [session_bars];
    destruct (minutes <? 16 * 60); try discriminate.
  destruct (Py.replace day (minutes / 60) (minutes mod 60) 0 0);
    [|intros [= <-]; eauto].
  destruct step; [apply IH | intros [= <-]; eauto].
Qed.

Lemma hist_dates_exn (fuel : nat) (intr : bool) (step : option Z)
    (last : Py.datetime) (x : Py.exn) :
  forall cur dates,
  hist_dates fuel intr step cur last dates = Exc x ->
  x = Py.OverflowError \/ exists msg, x = Py.ValueError msg.
Proof.
  induction fuel as [|fuel IH]; intros cur dates; cbn [hist_dates];
    destruct (Py.dt_leb cur last); try discriminate.
  assert (Hday : forall dates',
             match Py.add_days cur 1 with
             | Some next_date => hist_dates fuel intr step next_date last dates'
             | None => Exc Py.OverflowError
             end = Exc x ->
             x = Py.OverflowError \/ exists msg, x = Py.ValueError msg).
  { intros dates'. destruct (Py.add_days cur 1); [apply IH | intros [= <-]; auto]. }
  destruct intr, (Py.weekday cur <? 5); try apply Hday.
  destruct (session_bars (S fuel) step cur (9 * 60 + 30) dates) as [ds|x'|] eqn:Es;
    [apply Hday | | discriminate].
  intros [= <-]. right. exact (session_bars_exn _ _ _ _ _ _ Es).
Qed.

Lemma loader_failure (fuel : nat) (now_start now_end : Py.datetime) (rnd : Draws)
    (s s' : TradeLockerFeed) (r : res unit) :
  _load_historical_data fuel now_start now_end rnd s = (r, s') ->
  r = Val tt
  \/ (s' = s /\ (r = OutOfFuel \/ r = Exc Py.OverflowError
                 \/ exists msg, r = Exc (Py.ValueError msg))).
Proof.
  unfold _load_historical_data. run_m.
  destruct (start_date (p s) now_start) as [first|]; [|intros [= <- <-]; auto].
  destruct (hist_dates fuel (intraday s) _ first (end_date (p s) now_end) [])
    as [dates|x|] eqn:E.
  - destruct dates; intros [= <- <-]; auto.
  - intros [= <- <-]. right. split; [reflexivity|]. right.
    destruct (hist_dates_exn _ _ _ _ _ _ _ E) as [->|[msg ->]]; eauto.
  - intros [= <- <-]. auto.
Qed.

(** X17. With the repository's API class, [start] always leaves the handle
    connected and never raises [RuntimeError]; it can only fail inside the
    loader (a loop out of budget, [OverflowError] or [ValueError]), and
    then the cursor and the table are left as they were. When it returns,
    the cursor is at -1, and with [historical] on there is a table; with
    [historical] off the table is not touched. *)
Theorem start_outcome (fuel : nat) (now_start now_end : Py.datetime) (rnd : Draws)
    (s : TradeLockerFeed) :
  let r := start fuel now_start now_end rnd s in
  is_connected (self_api (snd r)) = true
  /\ (fst r = Val tt
      /\ _idx (snd r) = Some (-1)
      /\ (if historical (p s)
          then hist_loaded (snd r) = true /\ hist_data (snd r) <> None
          else hist_data (snd r) = hist_data s)
      \/ historical (p s) = true
         /\ _idx (snd r) = _idx s /\ hist_data (snd r) = hist_data s
         /\ (fst r = OutOfFuel \/ fst r = Exc Py.OverflowError
             \/ exists msg, fst r = Exc (Py.ValueError msg))).
Proof.
  intros r. subst r.
  set (s0 := if negb (is_connected (self_api s))
             then set_api (mk_api (api_key (self_api s)) true) s else s).
  assert (Hconn : is_connected (self_api s0) = true).
  { unfold s0. destruct (is_connected (self_api s)) eqn:E; simpl; auto. }
  assert (Hp : p s0 = p s) by (unfold s0; destruct (negb _); reflexivity).
  assert (Hi : _idx s0 = _idx s) by (unfold s0; destruct (negb _); reflexivity).
  assert (Hh : hist_data s0 = hist_data s) by (unfold s0; destruct (negb _); reflexivity).
  assert (Hstart :
    start fuel now_start now_end rnd s
    = if historical (p s)
      then match _load_historical_data fuel now_start now_end rnd s0 with
           | (Val _, s1) => (Val tt, set_idx (-1) s1)
           | (Exc x, s1) => (Exc x, s1)
           | (OutOfFuel, s1) => (OutOfFuel, s1)
           end
      else (Val tt, set_idx (-1) s0)).
  { unfold start, connect, s0. run_m. simpl.
    destruct (is_connected (self_api s)); simpl; destruct (historical (p s)); simpl;
      try reflexivity;
      match goal with
      | |- context [_load_historical_data ?f ?a ?b ?c ?d] =>
          destruct (_load_historical_data f a b c d) as [[[]|?|] ?]; reflexivity
      end. }
  rewrite Hstart.
  destruct (historical (p s)) eqn:Eh.
  - destruct (_load_historical_data fuel now_start now_end rnd s0) as [r1 s1] eqn:El.
    destruct (loader_failure _ _ _ _ _ _ _ El) as [->|(-> & Hr)].
    + destruct (loader_table _ _ _ _ _ _ El)
        as (first & dates & _ & _ & Hh1 & Hl1 & _).
      assert (Hapi : self_api s1 = self_api s0).
      { revert El. unfold _load_historical_data. run_m.
        destruct (start_date _ _); [|discriminate].
        destruct (hist_dates _ _ _ _ _ _) as [ds| |]; try discriminate.
        destruct ds; intros [= <-]; reflexivity. }
      simpl. split; [congruence|]. left. repeat split; auto. congruence.
    + split; [destruct Hr as [->|[->|[msg ->]]]; exact Hconn|].
      right. split; [reflexivity|].
      destruct Hr as [->|[->|[msg ->]]]; simpl; repeat split; eauto.
  - simpl. split; [exact Hconn|]. left. repeat split; auto.
Qed.


(** ** Orders of the strategy *)

(** X19. A bar submits at most one order and leaves the position alone: a buy
    exactly when no order is tracked, the position is flat and the fast
    average crossed above the slow one; a sell exactly when no order is
    tracked, a position is open and it crossed below. The order submitted
    is then the tracked one. *)
Theorem bar_submits_at_most_one (crossover : Z) (created : Strategy.Order)
    (st : Strategy.EmaCrossStrategy) :
  let st' := Strategy.next crossover created st in
  exists new,
    Strategy.submitted st' = Strategy.submitted st ++ new
    /\ Strategy.position st' = Strategy.position st
    /\ (new = [Strategy.Buy]
        <-> Strategy.order st = None /\ Strategy.position st = 0 /\ 0 < crossover)
    /\ (new = [Strategy.Sell]
        <-> Strategy.order st = None /\ Strategy.position st <> 0 /\ crossover < 0)
    /\ (new = [] \/ new = [Strategy.Buy] \/ new = [Strategy.Sell])
    /\ (new <> [] -> Strategy.order st' = Some created)
    /\ (new = [] -> Strategy.order st' = Strategy.order st).
Proof.
  unfold Strategy.next.
  destruct (Strategy.order st) as [o|] eqn:Eo.
  - exists []. rewrite app_nil_r, Eo.
    repeat split; auto; try discriminate; try (intros (H & _); discriminate);
      try congruence.
  - cbn [Strategy.log Strategy.position].
    destruct (Z.eqb_spec (Strategy.position st) 0) as [Hp|Hp].
    + destruct (Z.ltb_spec 0 crossover) as [Hc|Hc].
      * exists [Strategy.Buy]. simpl.
        repeat split; auto; try discriminate; try lia;
          try (intros (_ & H & _); congruence); try congruence.
      * exists []. simpl. rewrite app_nil_r.
        repeat split; auto; try discriminate; try congruence;
          try (intros (_ & _ & H); lia); try (intros (_ & H & _); congruence).
    + destruct (Z.ltb_spec crossover 0) as [Hc|Hc].
      * exists [Strategy.Sell]. simpl.
        repeat split; auto; try discriminate; try lia;
          try (intros (_ & H & _); congruence); try congruence.
      * exists []. simpl. rewrite app_nil_r.
        repeat split; auto; try discriminate; try congruence;
          try (intros (_ & _ & H); lia); try (intros (_ & H & _); congruence).
Qed.

Lemma tick_potential (t : Strategy.Tick) (st : Strategy.EmaCrossStrategy) :
  (List.length (Strategy.submitted (Strategy.tick st t))
   + Strategy.free_slot (Strategy.tick st t)
   <= List.length (Strategy.submitted st) + Strategy.free_slot st
      + (if Strategy.resolves t then 1 else 0))%nat
  /\ exists new, Strategy.submitted (Strategy.tick st t) = Strategy.submitted st ++ new.
Proof.
  destruct t as [crossover created|o|size]; simpl.
  - unfold Strategy.next, Strategy.free_slot.
    destruct (Strategy.order st) eqn:Eo.
    + rewrite Eo. split; [lia | exists []; now rewrite app_nil_r].
    + cbn [Strategy.log Strategy.position].
      destruct (Strategy.position st =? 0), (0 <? crossover), (crossover <? 0);
        simpl; rewrite ?Eo, ?length_app; simpl;
        (split; [lia | first [ exists []; now rewrite app_nil_r | eauto ]]).
  - unfold Strategy.notify_order, Strategy.free_slot.
    destruct st as [ord pos lg sub].
    destruct (Strategy.status o), (Strategy.isbuy o), ord; simpl;
      (split; [lia | exists []; now rewrite app_nil_r]).
  - split; [unfold Strategy.free_slot; simpl; lia | exists []; now rewrite app_nil_r].
Qed.

(** X20. Through any sequence of bars, order reports and position changes,
    submitted orders are only ever appended, and their number grows by at
    most one per report that clears the tracking, plus one if no order was
    tracked at the start. *)
Theorem submissions_bounded_by_resolutions (ts : list Strategy.Tick)
    (st : Strategy.EmaCrossStrategy) :
  (List.length (Strategy.submitted (Strategy.ticks ts st))
   + Strategy.free_slot (Strategy.ticks ts st)
   <= List.length (Strategy.submitted st) + Strategy.free_slot st
      + Strategy.resolutions ts)%nat
  /\ exists new,
       Strategy.submitted (Strategy.ticks ts st) = Strategy.submitted st ++ new.
Proof.
  revert st. unfold Strategy.ticks, Strategy.resolutions.
  induction ts as [|t ts IH]; intros st; simpl.
  - split; [lia | exists []; now rewrite app_nil_r].
  - destruct (tick_potential t st) as [H1 [new1 H2]].
    destruct (IH (Strategy.tick st t)) as [H3 [new2 H4]].
    split.
    + destruct (Strategy.resolves t); simpl in *; lia.
    + exists (new1 ++ new2). rewrite H4, H2. now rewrite app_assoc.
Qed.

(** ** Setting up live trading *)

Lemma split_on_not_nil (sep : ascii) (l : list ascii) : split_on sep l <> [].
Proof.
  destruct l as [|c r]; simpl; [discriminate|].
  destruct (Ascii.eqb c sep); [discriminate|].
  destruct (split_on sep r); discriminate.
Qed.

Lemma split_on_length (sep : ascii) (l : list ascii) :
  List.length (split_on sep l) = S (count_occ ascii_dec l sep).
Proof.
  induction l as [|c r IH]; [reflexivity|]. simpl.
  destruct (Ascii.eqb_spec c sep) as [->|Hne].
  - destruct (ascii_dec sep sep); [|congruence]. simpl. now rewrite IH.
  - destruct (ascii_dec c sep); [congruence|].
    destruct (split_on sep r) eqn:E; [now destruct (split_on_not_nil sep r)|].
    simpl in *. exact IH.
Qed.

Lemma split_on_join (sep : ascii) (l : list ascii) :
  forall field fields, split_on sep l = field :: fields ->
  l = field ++ List.concat (map (cons sep) fields)
  /\ Forall (fun f => ~ In sep f) (field :: fields).
Proof.
  induction l as [|c r IH]; intros field fields; simpl.
  - intros [= <- <-]. split; [reflexivity | repeat constructor; auto].
  - destruct (Ascii.eqb_spec c sep) as [->|Hne].
    + intros [= <- <-].
      destruct (split_on sep r) as [|f fs] eqn:E; [now destruct (split_on_not_nil sep r)|].
      destruct (IH f fs eq_refl) as [Hr Hall]. simpl. split.
      * now rewrite <- Hr.
      * constructor; [intros []|exact Hall].
    + destruct (split_on sep r) as [|f fs] eqn:E; [now destruct (split_on_not_nil sep r)|].
      intros [= <- <-]. destruct (IH f fs eq_refl) as [Hr Hall]. split.
      * simpl. now rewrite <- Hr.
      * inversion Hall as [|? ? Hf Hfs]; subst. constructor; [|exact Hfs].
        intros [Hc|Hin]; [congruence | now apply Hf].
Qed.

Lemma build_feeds_ok (trade_api : TradeLockerAPI) (tf : string) (c : ascii)
    (clock : nat -> Py.datetime) :
  Py.last_char (Py.chars tf) = Some c ->
  (forall i, 365 < Py.ordinal (clock i) <= Py._MAXORDINAL) ->
  forall symbols i,
  exists feeds,
    build_feeds trade_api tf clock i symbols = (feeds, None)
    /\ map (fun f => symbol (p f)) feeds = map Some symbols
    /\ Forall (fun f => self_api f = trade_api
                        /\ timeframe (p f) = tf
                        /\ intraday f = not_in_dwm c
                        /\ historical (p f) = true
                        /\ hist_data f = None /\ live_buffer f = []
                        /\ forall e, is_trading_hours e f = (Val (live_session e), f))
              feeds.
Proof.
  intros Hc Hclock. induction symbols as [|sym rest IH]; intros i; simpl.
  - exists []. repeat split; constructor.
  - destruct (Py.add_days (clock i) (-365)) as [from|] eqn:Ea.
    2:{ unfold Py.add_days in Ea. specialize (Hclock i).
        assert (E1 : (0 <? Py.ordinal (clock i) + -365) = true) by (apply Z.ltb_lt; lia).
        assert (E2 : (Py.ordinal (clock i) + -365 <=? Py._MAXORDINAL) = true)
          by (apply Z.leb_le; lia).
        rewrite E1, E2 in Ea. discriminate Ea. }
    unfold __init__. cbn [api symbol timeframe live_params]. rewrite Hc.
    destruct (IH (S i)) as (feeds & -> & Hsym & Hall).
    eexists. split; [reflexivity|]. split; [simpl; now rewrite Hsym|].
    constructor; [|exact Hall].
    repeat split; intros; reflexivity.
Qed.

(** X21. With an API key, a timeframe that is not empty and a clock past the
    first year, [run_live_trading] builds one feed per field of the
    comma-separated symbol list (empty fields included), in order, each on
    the connected handle, never loaded yet, with the session window 09:30
    to 16:00; it hands them to the engine and leaves the handle
    disconnected. *)
Theorem live_run_builds_feeds
    (cerebro_run : list TradeLockerFeed -> TradeLockerAPI
                   -> option Py.exn * TradeLockerAPI)
    (args : Args) (clock : nat -> Py.datetime) (c : ascii) :
  args_api_key args <> EmptyString ->
  Py.last_char (Py.chars (args_timeframe args)) = Some c ->
  (forall i, 365 < Py.ordinal (clock i) <= Py._MAXORDINAL) ->
  let trade_api := mk_api (args_api_key args) true in
  let symbols := map string_of_list_ascii (split_on "," (Py.chars (args_symbols args))) in
  exists feeds,
    run_live_trading cerebro_run args clock
    = Ended feeds (fst (cerebro_run feeds trade_api))
            (mk_api (api_key (snd (cerebro_run feeds trade_api))) false)
    /\ List.length feeds
       = S (count_occ ascii_dec (Py.chars (args_symbols args)) ","%char)
    /\ map (fun f => symbol (p f)) feeds = map Some symbols
    /\ Forall (fun f => self_api f = trade_api
                        /\ intraday f = not_in_dwm c
                        /\ hist_data f = None
                        /\ forall e, is_trading_hours e f = (Val (live_session e), f))
              feeds.
Proof.
  intros Hkey Hc Hclock trade_api symbols.
  destruct (build_feeds_ok trade_api (args_timeframe args) c clock Hc Hclock symbols 0%nat)
    as (feeds & Hb & Hsym & Hall).
  exists feeds. split; [|split; [|split]].
  - unfold run_live_trading, connect. cbn [is_connected negb api_key].
    destruct (args_api_key args) eqn:Ek; [congruence|].
    fold symbols. fold trade_api. rewrite Hb.
    destruct (cerebro_run feeds trade_api); reflexivity.
  - rewrite <- (split_on_length "," (Py.chars (args_symbols args))).
    rewrite <- (length_map string_of_list_ascii). fold symbols.
    rewrite <- (length_map Some symbols), <- Hsym. now rewrite length_map.
  - exact Hsym.
  - eapply Forall_impl; [|exact Hall].
    intros f (H1 & _ & H3 & _ & H5 & _ & H7). repeat split; assumption.
Qed.

Lemma live_run_builds_feeds_witness :
  exists feeds,
    run_live_trading idle_engine demo_args demo_clock
    = Ended feeds None (mk_api "secret" false)
    /\ List.length feeds = 2%nat
    /\ map (fun f => symbol (p f)) feeds = [Some "AAPL"; Some "MSFT"]%string.
Proof.
  destruct (live_run_builds_feeds idle_engine demo_args demo_clock "d"%char)
    as (feeds & H1 & H2 & H3 & _).
  - discriminate.
  - reflexivity.
  - intros i. vm_compute. split; [reflexivity | discriminate].
  - exists feeds. split; [exact H1|]. split; [exact H2 | exact H3].
Defined.

(** X22. [run_live_trading] returns at once without an API key, and otherwise
    always leaves the API handle disconnected, whether a feed could not be
    built, the engine raised, or the run ended normally; with an empty
    timeframe no feed is built and the engine is never run. *)
Theorem live_run_ends_disconnected
    (cerebro_run : list TradeLockerFeed -> TradeLockerAPI
                   -> option Py.exn * TradeLockerAPI)
    (args : Args) (clock : nat -> Py.datetime) :
  match run_live_trading cerebro_run args clock with
  | NoApiKey => args_api_key args = EmptyString
  | ConnectFailed => False
  | Ended feeds err trade_api =>
      args_api_key args <> EmptyString /\ is_connected trade_api = false
      /\ (args_timeframe args = EmptyString ->
          365 < Py.ordinal (clock 0%nat) <= Py._MAXORDINAL ->
          feeds = [] /\ err = Some Py.IndexError)
  end.
Proof.
  unfold run_live_trading, connect. cbn [is_connected negb api_key].
  destruct (args_api_key args) eqn:Ek; [reflexivity|].
  set (trade_api := mk_api (String a s) true).
  set (symbols := map string_of_list_ascii (split_on "," (Py.chars (args_symbols args)))).
  destruct (build_feeds trade_api (args_timeframe args) clock 0 symbols)
    as [feeds [x|]] eqn:Eb.
  - cbv beta iota. split; [discriminate|]. split; [reflexivity|].
    intros Htf Hclock.
    assert (Hs : exists sym rest, symbols = sym :: rest).
    { unfold symbols.
      destruct (split_on "," (Py.chars (args_symbols args))) eqn:E;
        [now destruct (split_on_not_nil "," (Py.chars (args_symbols args)))|].
      simpl. eauto. }
    destruct Hs as (sym & rest & Hs). rewrite Hs in Eb. simpl in Eb.
    unfold Py.add_days in Eb.
    assert (E1 : (0 <? Py.ordinal (clock 0%nat) + -365) = true) by (apply Z.ltb_lt; lia).
    assert (E2 : (Py.ordinal (clock 0%nat) + -365 <=? Py._MAXORDINAL) = true)
      by (apply Z.leb_le; lia).
    rewrite E1, E2 in Eb. cbn [andb] in Eb.
    unfold __init__ in Eb. cbn [api symbol timeframe live_params] in Eb.
    rewrite Htf in Eb. simpl in Eb. injection Eb as <- <-. auto.
  - destruct (cerebro_run feeds trade_api) as [err' api']. cbv beta iota.
    split; [discriminate|]. split; [reflexivity|].
    intros Htf Hclock. exfalso.
    assert (Hs : exists sym rest, symbols = sym :: rest).
    { unfold symbols.
      destruct (split_on "," (Py.chars (args_symbols args))) eqn:E;
        [now destruct (split_on_not_nil "," (Py.chars (args_symbols args)))|].
      simpl. eauto. }
    destruct Hs as (sym & rest & Hs). rewrite Hs in Eb. simpl in Eb.
    unfold Py.add_days in Eb.
    assert (E1 : (0 <? Py.ordinal (clock 0%nat) + -365) = true) by (apply Z.ltb_lt; lia).
    assert (E2 : (Py.ordinal (clock 0%nat) + -365 <=? Py._MAXORDINAL) = true)
      by (apply Z.leb_le; lia).
    rewrite E1, E2 in Eb. cbn [andb] in Eb.
    unfold __init__ in Eb. cbn [api symbol timeframe live_params] in Eb.
    rewrite Htf in Eb. simpl in Eb. discriminate Eb.
Qed.

Lemma live_run_ends_disconnected_witness :
  run_live_trading idle_engine no_timeframe_args demo_clock
  = Ended [] (Some Py.IndexError) (mk_api "secret" false).
Proof.
  pose proof (live_run_ends_disconnected idle_engine no_timeframe_args demo_clock) as H.
  destruct (run_live_trading idle_engine no_timeframe_args demo_clock)
    as [| |feeds err trade_api] eqn:E; [discriminate H | destruct H |].
  destruct H as (_ & _ & H).
  destruct H as [-> ->]; [reflexivity | vm_compute; split; [reflexivity|discriminate] |].
  vm_compute in E. injection E as <-. reflexivity.
Defined.

(** ** Live data *)

(** X18. Once the cursor is at or past the end of the table, [haslivedata]
    answers true, and goes on doing so after any sequence of calls to
    [next] and [_load_bar]. *)
Theorem haslivedata_in_live_range (cs : list Call) (s : TradeLockerFeed) :
  in_live_range s ->
  let s' := snd (call_all cs s) in
  haslivedata s' = (Val true, s').
Proof.
  intros Hlive s'.
  assert (Hlive' : in_live_range s').
  { unfold s'. clear s'. revert s Hlive.
    induction cs as [|c cs IH]; intros s Hlive; [exact Hlive|].
    cbn [call_all].
    pose proof (call_live_range c s Hlive) as Hc.
    destruct (call c s) as [r s1]. simpl in Hc.
    specialize (IH s1 (in_live_range_same_cursor s s1 Hlive Hc)).
    destruct (call_all cs s1) as [rs s2]. exact IH. }
  destruct Hlive' as (rows & i & Hh & Hi & Hle).
  unfold haslivedata, get_idx, len_hist_data. run_m.
  destruct (live_buffer s'); [|reflexivity].
  cbv beta. rewrite Hi. cbv iota beta. rewrite Hh.
  assert (E : (Z.of_nat (List.length rows) <=? i) = true) by (apply Z.leb_le; lia).
  now rewrite E.
Qed.

Lemma haslivedata_in_live_range_witness :
  let s' := snd (call_all [CallNext saturday_noon; CallLoadBar saturday_noon] queued_feed) in
  haslivedata s' = (Val true, s').
Proof.
  apply (haslivedata_in_live_range [CallNext saturday_noon; CallLoadBar saturday_noon]
           queued_feed).
  exists (hist_rows flat_draws 0
            [Py.midnight 2024 1 1; Py.midnight 2024 1 2; Py.midnight 2024 1 3]), 3.
  repeat split; simpl; lia.
Defined.


(** ** Order of the rows *)

Lemma increasing_nth (ds : list Py.datetime) :
  increasing ds ->
  forall i j a b, (i < j)%nat ->
  nth_error ds i = Some a -> nth_error ds j = Some b -> Py.dt_ltb a b = true.
Proof.
  unfold increasing. induction 1 as [|d ds Hs IH Hd]; intros i j a b Hij Ha Hb.
  - destruct i; discriminate Ha.
  - destruct j as [|j]; [lia|]. simpl in Hb.
    destruct i as [|i]; simpl in Ha.
    + injection Ha as <-. rewrite Forall_forall in Hd. apply Hd.
      eapply nth_error_In; eauto.
    + apply (IH i j); auto. lia.
Qed.

(** X1. Whenever the loader returns, the rows of its table are in strictly
    increasing order of timestamp: a row is strictly earlier than every
    row after it, for daily and for intraday timeframes, so no two rows
    share a timestamp. *)
Theorem loader_timestamps_increasing (fuel : nat) (now_start now_end : Py.datetime)
    (rnd : Draws) (s s' : TradeLockerFeed) :
  _load_historical_data fuel now_start now_end rnd s = (Val tt, s') ->
  exists rows,
    hist_data s' = Some rows
    /\ increasing (map datetime rows)
    /\ forall i j a b, (i < j)%nat ->
       nth_error rows i = Some a -> nth_error rows j = Some b ->
       Py.dt_ltb (datetime a) (datetime b) = true.
Proof.
  intros H. destruct (hist_rows_increasing _ _ _ _ _ _ H) as (rows & Hh & Hinc).
  exists rows. split; [exact Hh|]. split; [exact Hinc|].
  intros i j a b Hij Ha Hb.
  apply (increasing_nth _ Hinc i j); auto.
  - now rewrite nth_error_map, Ha.
  - now rewrite nth_error_map, Hb.
Qed.

Lemma loader_timestamps_increasing_witness :
  exists rows,
    hist_data three_day_feed = Some rows
    /\ increasing (map datetime rows).
Proof.
  destruct (loader_timestamps_increasing 10 (Py.midnight 2024 1 10)
              (Py.midnight 2024 1 10) flat_draws three_day_unloaded three_day_feed)
    as (rows & H1 & H2 & _).
  - vm_compute. reflexivity.
  - exists rows. split; assumption.
Defined.


(** ** The table stays behind the live bars *)


Lemma fetch_live_bar_silent (e : Env) (s s1 : TradeLockerFeed) (r : res (option Bar)) :
  _fetch_live_bar e s = (r, s1) ->
  (forall b, r <> Val (Some b)) ->
  s1 = s /\ r <> OutOfFuel.
Proof.
  intros E Hn.
  destruct (fetch_live_bar_cases e s) as [[x Hx]|[Hx|(b & Hx & _)]];
    rewrite Hx in E; injection E as <- <-.
  - split; [reflexivity | discriminate].
  - split; [reflexivity | discriminate].
  - now destruct (Hn b).
Qed.

Lemma table_behind_fetch (rows : list Bar) (e : Env) (s s1 : TradeLockerFeed)
    (r : res (option Bar)) :
  _fetch_live_bar e s = (r, s1) -> table_behind rows s ->
  table_behind rows s1
  /\ live_buffer s1 = live_buffer s /\ p s1 = p s
  /\ forall b, r = Val (Some b) ->
     forall row, In row rows -> Py.dt_ltb (datetime row) (datetime b) = true.
Proof.
  intros E (Hh & Ht & Hb).
  destruct r as [[b|]|x|].
  - destruct (fetch_live_bar_emits e s s1 b E) as (_ & _ & _ & _ & -> & Hlt).
    assert (Hrow : forall row, In row rows ->
                               Py.dt_ltb (datetime row) (datetime b) = true).
    { intros row Hin. destruct (Ht row Hin) as (t & Et & Hle).
      rewrite Et in Hlt. exact (dt_leb_ltb_trans _ _ _ Hle Hlt). }
    split; [|split; [reflexivity|split; [reflexivity|]]].
    + split; [exact Hh|]. split.
      * intros row Hin. exists (datetime b). split; [reflexivity|].
        apply dt_ltb_leb. now apply Hrow.
      * exact Hb.
    + intros b' [= <-]. exact Hrow.
  - destruct (fetch_live_bar_silent e s s1 _ E) as [-> _]; [discriminate|].
    repeat split; auto. discriminate.
  - destruct (fetch_live_bar_silent e s s1 _ E) as [-> _]; [discriminate|].
    repeat split; auto. discriminate.
  - destruct (fetch_live_bar_silent e s s1 _ E) as [_ H]; [discriminate|].
    now destruct H.
Qed.

Lemma table_behind_poll (rows : list Bar) (e : Env) (s : TradeLockerFeed) :
  table_behind rows s ->
  table_behind rows (snd (_load_next_live_bar e s))
  /\ p (snd (_load_next_live_bar e s)) = p s.
Proof.
  intros H. unfold _load_next_live_bar, bind.
  destruct (_fetch_live_bar e s) as [r s1] eqn:E.
  destruct (table_behind_fetch rows e s s1 r E H) as ((Hh & Ht & Hb) & Hbuf & Hp & Hlt).
  destruct r as [[b|]|x|]; simpl; try (split; [repeat split; assumption | exact Hp]).
  split; [|exact Hp]. split; [exact Hh|]. split; [exact Ht|].
  simpl. intros row b' Hin Hb'. apply in_app_or in Hb' as [Hb'|[<-|[]]].
  - now apply Hb.
  - now apply (Hlt b eq_refl).
Qed.

Lemma table_behind_pop (rows : list Bar) (s : TradeLockerFeed) (rest : list Bar) :
  (forall b, In b rest -> In b (live_buffer s)) ->
  table_behind rows s -> table_behind rows (set_live_buffer rest s).
Proof.
  intros Hsub (Hh & Ht & Hb). split; [exact Hh|]. split; [exact Ht|].
  simpl. intros row b Hin Hb'. apply Hb; auto.
Qed.

(** ** What is served in the live range *)









(** ** Live bars come after the table *)

Lemma loaded_behind_poll (rows : list Bar) (e : Env) :
  preserves (loaded_behind rows) (_load_next_live_bar e).
Proof.
  intros s [Ht Hh]. destruct (table_behind_poll rows e s Ht) as [Ht' Hp].
  split; [exact Ht'|]. now rewrite Hp.
Qed.

Lemma loaded_behind_pop_front (rows : list Bar) :
  preserves (loaded_behind rows)
    (buf <- gets live_buffer ;;
     match buf with
     | b :: rest => modify (set_live_buffer rest) ;;; ret (Some b)
     | [] => ret None
     end).
Proof.
  intros s [Ht Hh]. unfold bind, gets.
  destruct (live_buffer s) as [|b rest] eqn:Eb; [now split|].
  unfold modify, ret. simpl. split; [|exact Hh].
  apply table_behind_pop; [|exact Ht]. intros b0 Hb0. rewrite Eb. now right.
Qed.

Lemma loaded_behind_set (rows : list Bar) (f : TradeLockerFeed -> TradeLockerFeed) :
  (forall s, hist_data (f s) = hist_data s) ->
  (forall s, live_buffer (f s) = live_buffer s) ->
  (forall s, last_bar_time (f s) = last_bar_time s) ->
  (forall s, p (f s) = p s) ->
  preserves (loaded_behind rows) (modify f).
Proof.
  intros H1 H2 H3 H4 s [(Hh & Ht & Hb) Hp]. unfold modify, loaded_behind, table_behind.
  simpl. rewrite H1, H2, H3, H4. repeat split; assumption.
Qed.

Lemma loaded_behind_handover (rows : list Bar) (e : Env) :
  preserves (loaded_behind rows)
    (h <- gets (fun s => historical (p s)) ;;
     (if negb h then
        modify (set_live_buffer []) ;;; modify (set_last_bar_time None)
      else ret tt) ;;;
     _next_live e).
Proof.
  intros s [Ht Hh]. unfold bind at 1. unfold gets. rewrite Hh.
  cbn [negb]. unfold bind, ret. apply loaded_behind_poll. now split.
Qed.

Ltac loaded_known :=
  first [ apply loaded_behind_poll | apply loaded_behind_pop_front
        | apply loaded_behind_handover
        | apply loaded_behind_set; reflexivity ].

Lemma loaded_behind_next (rows : list Bar) (e : Env) :
  preserves (loaded_behind rows) (next e).
Proof.
  unfold next, _next_historical, _next_live, get_idx, len_hist_data.
  pres_with loaded_known.
Qed.

Lemma loaded_behind_load_bar (rows : list Bar) (e : Env) :
  preserves (loaded_behind rows) (_load_bar e).
Proof.
  unfold _load_bar, _get_bar, idx_in_table, get_idx, len_hist_data, iloc.
  pres_with loaded_known.
Qed.

Lemma loaded_behind_calls (rows : list Bar) (cs : list Call) (s : TradeLockerFeed) :
  loaded_behind rows s -> loaded_behind rows (snd (call_all cs s)).
Proof.
  revert s. induction cs as [|c cs IH]; intros s Hs; [exact Hs|].
  cbn [call_all].
  assert (Hc : loaded_behind rows (snd (call c s))).
  { destruct c; [now apply loaded_behind_next | now apply loaded_behind_load_bar]. }
  destruct (call c s) as [r s1]. simpl in Hc. specialize (IH s1 Hc).
  destruct (call_all cs s1) as [rs s2]. exact IH.
Qed.

(** X6. After the loader returns with rows, the last-known timestamp is that
    of the last row and no row is later. When the loader ran as [start]
    runs it ([historical] on, nothing in the live buffer), then after any
    sequence of calls to [next] and [_load_bar], from any position of the
    cursor and also across calls that raise, the table is still the same,
    every bar waiting in the live buffer is strictly later than every row
    of the table, and so is every bar that the live poller emits then. *)
Theorem live_bars_follow_table (fuel : nat) (now_start now_end : Py.datetime)
    (rnd : Draws) (s s1 : TradeLockerFeed) (rows : list Bar) (r0 : Bar) :
  _load_historical_data fuel now_start now_end rnd s = (Val tt, s1) ->
  hist_data s1 = Some rows -> rows <> [] ->
  last_bar_time s1 = Some (datetime (last rows r0))
  /\ Forall (fun r => Py.dt_leb (datetime r) (datetime (last rows r0)) = true) rows
  /\ (historical (p s) = true -> live_buffer s = [] ->
      forall (i : Z) (cs : list Call),
      let s2 := snd (call_all cs (set_idx i s1)) in
      hist_data s2 = Some rows
      /\ (forall b, In b (live_buffer s2) ->
          Forall (fun r => Py.dt_ltb (datetime r) (datetime b) = true) rows)
      /\ (forall e b s3, _fetch_live_bar e s2 = (Val (Some b), s3) ->
          Forall (fun r => Py.dt_ltb (datetime r) (datetime b) = true) rows)).
Proof.
  intros H Hh Hne.
  pose proof (hist_rows_increasing _ _ _ _ _ _ H) as (rows' & Hh' & Hinc).
  assert (rows' = rows) by congruence. subst rows'.
  destruct (loader_table _ _ _ _ _ _ H)
    as (first & dates & _ & _ & Hh2 & _ & Hl & Hp & _ & _ & Hbuf & _).
  assert (Hrows : rows = hist_rows rnd 0 dates) by congruence.
  assert (Hmap : map datetime rows = dates)
    by (rewrite Hrows; apply hist_rows_datetime).
  assert (Hlast : forall d0, last dates d0 = datetime (last rows r0)).
  { intros d0. rewrite <- Hmap. clear - Hne.
    induction rows as [|r rows IH]; [congruence|].
    destruct rows as [|r' rows]; [reflexivity|].
    change (last (map datetime (r :: r' :: rows)) d0)
      with (last (map datetime (r' :: rows)) d0).
    change (last (r :: r' :: rows) r0) with (last (r' :: rows) r0).
    apply IH. discriminate. }
  assert (Hlbt : last_bar_time s1 = Some (datetime (last rows r0))).
  { rewrite Hl. destruct dates as [|d dates'].
    - rewrite Hrows in Hne. now contradiction Hne.
    - now rewrite Hlast. }
  assert (Hall : Forall (fun r => Py.dt_leb (datetime r) (datetime (last rows r0)) = true)
                        rows).
  { apply Forall_forall. intros r Hr.
    rewrite <- (Hlast (datetime r0)).
    rewrite Hmap in Hinc. apply increasing_last; [exact Hinc|].
    rewrite <- Hmap. now apply in_map. }
  split; [exact Hlbt|]. split; [exact Hall|].
  intros Hhist Hempty i cs s2.
  assert (Hstart : loaded_behind rows (set_idx i s1)).
  { split; [|simpl; now rewrite Hp]. split; [exact Hh|]. split.
    - intros row Hin. exists (datetime (last rows r0)). split; [exact Hlbt|].
      rewrite Forall_forall in Hall. now apply Hall.
    - simpl. rewrite Hbuf, Hempty. intros row b _ []. }
  destruct (loaded_behind_calls rows cs (set_idx i s1) Hstart) as [Ht _].
  fold s2 in Ht. pose proof Ht as (Hh2' & _ & Hb).
  split; [exact Hh2'|]. split.
  - intros b Hin. apply Forall_forall. intros r Hr. now apply Hb.
  - intros e b s3 E. apply Forall_forall. intros r Hr.
    destruct (table_behind_fetch rows e s2 s3 _ E Ht) as (_ & _ & _ & Hlt).
    now apply Hlt.
Qed.

Lemma live_bars_follow_table_witness :
  let s2 := snd (call_all [CallNext thursday_noon; CallLoadBar thursday_noon;
                           CallNext thursday_12_07] three_day_feed) in
  hist_data s2 = Some three_rows
  /\ (forall b, In b (live_buffer s2) ->
      Forall (fun r => Py.dt_ltb (datetime r) (datetime b) = true) three_rows)
  /\ (forall e b s3, _fetch_live_bar e s2 = (Val (Some b), s3) ->
      Forall (fun r => Py.dt_ltb (datetime r) (datetime b) = true) three_rows).
Proof.
  refine (proj2 (proj2 (live_bars_follow_table 10 (Py.midnight 2024 1 10)
                          (Py.midnight 2024 1 10) flat_draws three_day_unloaded
                          three_day_feed three_rows thursday_bar _ eq_refl _))
            eq_refl eq_refl (-1)
            [CallNext thursday_noon; CallLoadBar thursday_noon; CallNext thursday_12_07]).
  - vm_compute. reflexivity.
  - discriminate.
Defined.
